(** * cloudcraft-go: the request/response pipeline

    A shallow embedding of the Go client library's pipeline
    (client construction, [NewRequest], [Do], [CheckResponse],
    [addOptions]) and of the resource services built on it
    (blueprints, AWS accounts, users), with the properties the
    specification states about them. *)

From Stdlib Require Import ZArith Ascii String.
From stdpp Require Import base strings gmap list pretty.

Open Scope Z_scope.

(** ** Values shared by the whole package *)

(** Go strings and [[]byte] are both byte sequences; a Rocq [string] is a
    sequence of 8-bit characters, so one type serves for both and the
    conversion [string(data)] is the identity. *)

Definition libraryVersion : string := "1.0.0".
Definition defaultBaseURL : string := "https://api.cloudcraft.co/".
Definition userAgent : string := "cloudcraft-go/" +:+ libraryVersion.
Definition mediaType : string := "application/json".

Definition MethodGet : string := "GET".
Definition MethodHead : string := "HEAD".
Definition MethodOptions : string := "OPTIONS".
Definition MethodPost : string := "POST".
Definition MethodPut : string := "PUT".
Definition MethodDelete : string := "DELETE".

(** [url.URL], restricted to the components this package touches. *)
Record URL := mkURL {
  Scheme : string;
  Host : string;
  Path : string;
  RawQuery : string;
  Fragment : string
}.

Definition set_RawQuery (q : string) (u : URL) : URL :=
  {| Scheme := Scheme u; Host := Host u; Path := Path u; RawQuery := q;
     Fragment := Fragment u |}.

Definition set_Host (h : string) (u : URL) : URL :=
  {| Scheme := Scheme u; Host := h; Path := Path u; RawQuery := RawQuery u;
     Fragment := Fragment u |}.

Definition nonempty (s : string) : bool :=
  match s with EmptyString => false | String _ _ => true end.

Definition starts_with_slash (s : string) : bool :=
  match s with String "/"%char _ => true | _ => false end.

(** [URL.String] for a URL without opaque part or user info, whose host,
    path and fragment are stored in escaped form. *)
Definition URL_String (u : URL) : string :=
  (if nonempty (Scheme u) then Scheme u +:+ ":" else "")
  +:+ (if nonempty (Scheme u) || nonempty (Host u)
       then (if nonempty (Host u) || nonempty (Path u) then "//" else "")
            +:+ Host u
       else "")
  +:+ (if nonempty (Path u) && negb (starts_with_slash (Path u))
          && nonempty (Host u) then "/" else "")
  +:+ Path u
  +:+ (if nonempty (RawQuery u) then "?" +:+ RawQuery u else "")
  +:+ (if nonempty (Fragment u) then "#" +:+ Fragment u else "").

(** [http.Header] and [url.Values] are both [map[string][]string], here
    [gmap string (list string)]. *)

(** *** Header keys ([net/textproto]) *)

Definition is_lower (c : ascii) : bool :=
  let n := Ascii.N_of_ascii c in (97 <=? n)%N && (n <=? 122)%N.
Definition is_upper (c : ascii) : bool :=
  let n := Ascii.N_of_ascii c in (65 <=? n)%N && (n <=? 90)%N.
Definition is_digit (c : ascii) : bool :=
  let n := Ascii.N_of_ascii c in (48 <=? n)%N && (n <=? 57)%N.

Definition to_upper (c : ascii) : ascii :=
  if is_lower c then Ascii.ascii_of_N (Ascii.N_of_ascii c - 32) else c.
Definition to_lower (c : ascii) : ascii :=
  if is_upper c then Ascii.ascii_of_N (Ascii.N_of_ascii c + 32) else c.

(** The token characters of RFC 7230. *)
Definition is_token_byte (c : ascii) : bool :=
  is_lower c || is_upper c || is_digit c
  || bool_decide (c ∈ list_ascii_of_string "!#$%&'*+-.^_`|~").

Fixpoint all_bytes (p : ascii → bool) (s : string) : bool :=
  match s with
  | EmptyString => true
  | String c s' => p c && all_bytes p s'
  end.

Fixpoint canonical_loop (upper : bool) (s : string) : string :=
  match s with
  | EmptyString => EmptyString
  | String c s' =>
      String (if upper then to_upper c else to_lower c)
             (canonical_loop (Ascii.eqb c "-"%char) s')
  end.

(** [textproto.CanonicalMIMEHeaderKey]: a key holding a byte that is not a
    token character is returned as it is; otherwise the first letter and
    every letter after a hyphen is upper-cased and the rest lower-cased. *)
Definition CanonicalMIMEHeaderKey (s : string) : string :=
  if all_bytes is_token_byte s then canonical_loop true s else s.

Definition Header_Add (k v : string) (h : gmap string (list string)) : gmap string (list string) :=
  let k' := CanonicalMIMEHeaderKey k in
  <[k' := default [] (h !! k') ++ [v]]> h.

Definition Header_Set (k v : string) (h : gmap string (list string)) : gmap string (list string) :=
  <[CanonicalMIMEHeaderKey k := [v]]> h.

Definition Header_Values (k : string) (h : gmap string (list string)) : list string :=
  default [] (h !! CanonicalMIMEHeaderKey k).

(** [Header.Get]: the first value of the key, or the empty string. *)
Definition Header_Get (k : string) (h : gmap string (list string)) : string :=
  match Header_Values k h with
  | v :: _ => v
  | [] => ""
  end.

(** ** Requests, responses and errors *)

(** An [http.Request] as built by [http.NewRequest]: [ReqBody] is [None]
    when the request was built with a nil body reader. *)
Record Request := mkRequest {
  Method : string;
  ReqURL : URL;
  ReqHeader : gmap string (list string);
  ReqBody : option string
}.

(** A response body is a stream consumed in place: [unread] is what is left
    to read, [readErr] the failure (if any) that ends the stream instead of
    EOF, [closeErr] what [Close] reports. *)
Record Body := mkBody {
  unread : string;
  readErr : option string;
  closeErr : option string;
  closed : bool
}.

(** An [http.Response] as the HTTP client hands it over, with a body that
    is not nil.  [RespRequest] is the pointer to the request the response
    answers, [None] when it is nil. *)
Record Response := mkResponse {
  StatusCode : Z;
  RespHeader : gmap string (list string);
  ContentLength : Z;
  RespBody : Body;
  RespRequest : option Request
}.

Definition set_RespBody (b : Body) (r : Response) : Response :=
  {| StatusCode := StatusCode r; RespHeader := RespHeader r;
     ContentLength := ContentLength r; RespBody := b;
     RespRequest := RespRequest r |}.

(** What the [Response] field of an [ErrorResponse] points to: nothing
    (a nil pointer), the response that caused the error, shown as it is, or
    another response, one that a decoder has allocated. *)
Inductive pointee : Type :=
| NoResponse
| TheResponse (r : Response)
| OtherResponse (r : Response).

Definition pointee_response (p : pointee) : option Response :=
  match p with
  | NoResponse => None
  | TheResponse r | OtherResponse r => Some r
  end.

(** [ErrorResponse]: the pointer to the response that caused the error,
    and the message and code.  All three fields are exported, so all three
    are within reach of a JSON decoder: [Message] under the key "error",
    [Code] under "code" and, having no tag, [Response] under its name. *)
Record ErrorResponse := mkErrorResponse {
  ErrResponse : pointee;
  Message : string;
  Code : Z
}.

(** Go's [error] values met in this package. *)
Inductive error : Type :=
| ArgError (arg reason : string)
| ApiError (e : ErrorResponse)
| LibError (msg : string).

Inductive result (A : Type) : Type :=
| Ok (a : A)
| Err (e : error).
Arguments Ok {A} a.
Arguments Err {A} e.

#[global] Instance result_ret : MRet result := λ A a, Ok a.
#[global] Instance result_fmap : FMap result := λ A B f r,
  match r with
  | Ok a => Ok (f a)
  | Err e => Err e
  end.
#[global] Instance result_bind : MBind result := λ A B k r,
  match r with
  | Ok a => k a
  | Err e => Err e
  end.

(** [ErrorResponse.Error]:
    [fmt.Sprintf("%v %v: %d %v", r.Response.Request.Method,
                 r.Response.Request.URL, r.Response.StatusCode, r.Message)].
    It panics ([None]) when [r.Response] or [r.Response.Request] is nil. *)
Definition ErrorResponse_Error (r : ErrorResponse) : option string :=
  resp ← pointee_response (ErrResponse r);
  req ← RespRequest resp;
  Some (Method req +:+ " " +:+ URL_String (ReqURL req) +:+ ": "
        +:+ pretty (StatusCode resp) +:+ " " +:+ Message r).

(** What a decoder leaves in the [Response] field of an error that
    pointed to a response: the same pointer, nil, or a pointer to a
    response it has allocated. *)
Inductive pointer_written : Type :=
| KeepsResponse
| SetsNil
| SetsOther (r : Response).

(** What [json.Unmarshal(data, errorResponse)] has done when it returns.
    The error was built as [&ErrorResponse{Response: r}], so a member
    "Response" of the JSON text is decoded through the pointer into [r]
    itself: [um_response] is [r] afterwards (the stream behind its body
    is taken to be out of the decoder's reach, so only the other fields
    count), [um_body_nil] says that [r.Body] was set to nil, [um_pointer]
    is what the [Response] field of the error holds afterwards,
    [um_Message] and [um_Code] are the two other fields, [um_err] the
    error returned. *)
Record Unmarshalled := mkUnmarshalled {
  um_response : Response;
  um_body_nil : bool;
  um_pointer : pointer_written;
  um_Message : string;
  um_Code : Z;
  um_err : option error
}.

(** ** The client *)

(** The HTTP client a [Client] sends through: the outcome [(resp, err)] of
    its [n]-th exchange, for the request sent.  A failed exchange gives a
    nil response and a non-nil error.  The context passed to [Do] only
    travels to the exchange, so it is part of what decides the outcomes
    and is not a parameter here. *)
Definition Transport : Type := nat → Request → option Response * option error.

Record Client := mkClient {
  http_client : Transport;
  BaseURL : URL;
  UserAgent : string;
  (** whether a completion callback is registered; calling it is an event
      of the log *)
  onRequestCompleted : bool;
  (** extra headers set on every request *)
  headers : gmap string string
}.

Definition set_headers (h : gmap string string) (c : Client) : Client :=
  {| http_client := http_client c; BaseURL := BaseURL c;
     UserAgent := UserAgent c;
     onRequestCompleted := onRequestCompleted c; headers := h |}.

Definition set_UserAgent (ua : string) (c : Client) : Client :=
  {| http_client := http_client c; BaseURL := BaseURL c; UserAgent := ua;
     onRequestCompleted := onRequestCompleted c; headers := headers c |}.

Definition set_BaseURL (u : URL) (c : Client) : Client :=
  {| http_client := http_client c; BaseURL := u; UserAgent := UserAgent c;
     onRequestCompleted := onRequestCompleted c; headers := headers c |}.

Definition ClientOpt : Type := Client → result Client.

(** The argument [opt interface{}] of [addOptions] as [reflect] sees it:
    the nil interface, a pointer (nil or not) or a plain value. *)
Inductive optArg (Options : Type) : Type :=
| OptNil
| OptPointer (p : option Options)
| OptValue (o : Options).
Arguments OptNil {Options}.
Arguments OptPointer {Options} p.
Arguments OptValue {Options} o.

(** The destination [v interface{}] of [Do]: nil, an [io.Writer] or a value
    to decode into.  A writer holds what was written to it and the error
    (if any) its [Write] reports. *)
Record Writer := mkWriter {
  written : string;
  writeErr : option string
}.

Inductive dest (Value : Type) : Type :=
| DestNil
| DestWriter (w : Writer)
| DestValue (x : Value).
Arguments DestNil {Value}.
Arguments DestWriter {Value} w.
Arguments DestValue {Value} x.

(** The libraries the package calls.  [Value] stands for the Go values
    that travel as JSON, [Options] for the structs with [url] tags. *)
Class GoLib (Value Options : Type) := {
  (** [http.DefaultClient] *)
  http_DefaultClient : Transport;
  (** [url.Parse] *)
  url_Parse : string → result URL;
  (** [URL.Parse]: parse a reference and resolve it against the receiver *)
  URL_Parse : URL → string → result URL;
  (** [URL.Query] *)
  URL_Query : URL → gmap string (list string);
  (** [Values.Encode] *)
  Values_Encode : gmap string (list string) → string;
  (** [query.Values] of go-querystring *)
  query_Values : optArg Options → result (gmap string (list string));
  (** [json.NewEncoder(buf).Encode]: the bytes appended to the buffer *)
  json_Encode : Value → result string;
  (** [json.Unmarshal] into a fresh [ErrorResponse] that points to the
      given response: all that it may have written *)
  json_Unmarshal : string → Response → Unmarshalled;
  (** [json.NewDecoder(body).Decode(v)]: from the unread bytes of the body,
      its pending read error and the target, the number of bytes taken
      from the body, the target afterwards and the message of the error
      returned, if any. *)
  json_Decode : string → option string → Value → nat * Value * option string
}.

Section Requests.
Context {Value Options : Type} `{!GoLib Value Options}.

(** [NewClient] *)
Definition NewClient (httpClient : option Transport) : Client :=
  {| http_client := default http_DefaultClient httpClient;
     (** [url.Parse(defaultBaseURL)], the parse of a constant *)
     BaseURL := mkURL "https" "api.cloudcraft.co" "/" "" "";
     UserAgent := userAgent;
     onRequestCompleted := false;
     headers := ∅ |}.

Fixpoint apply_opts (opts : list ClientOpt) (c : Client) : result Client :=
  match opts with
  | [] => Ok c
  | opt :: rest => c' ← opt c; apply_opts rest c'
  end.

(** [New(httpClient, opts...)] *)
Definition New (httpClient : option Transport) (opts : list ClientOpt)
  : result Client :=
  apply_opts opts (NewClient httpClient).

Definition SetBaseURL (bu : string) : ClientOpt :=
  λ c, u ← url_Parse bu; Ok (set_BaseURL u c).

Definition SetUserAgent (ua : string) : ClientOpt :=
  λ c, Ok (set_UserAgent (ua +:+ " " +:+ UserAgent c) c).

(** [SetRequestHeaders]: [for k, v := range headers { c.headers[k] = v }] *)
Definition SetRequestHeaders (hs : gmap string string) : ClientOpt :=
  λ c, Ok (set_headers
             (map_fold (λ k v acc, <[k := v]> acc) (headers c) hs) c).

(** [NewFromToken]: the error of [New] is dropped, leaving a nil client. *)
Definition NewFromToken (token : string) : option Client :=
  match New None [SetRequestHeaders {[ "Authorization" := "Bearer" +:+ token ]}] with
  | Ok c => Some c
  | Err _ => None
  end.

(** [OnRequestCompleted] registers a callback. *)
Definition OnRequestCompleted (c : Client) : Client :=
  {| http_client := http_client c; BaseURL := BaseURL c;
     UserAgent := UserAgent c; onRequestCompleted := true;
     headers := headers c |}.

(** *** [net/http]: building a request *)

Definition validMethod (method : string) : bool :=
  nonempty method && all_bytes is_token_byte method.

Fixpoint trim_colon (host : string) : string :=
  match host with
  | EmptyString => EmptyString
  | String ":"%char EmptyString => EmptyString
  | String c rest => String c (trim_colon rest)
  end.

(** [http.NewRequest(method, url, body)]: [body] is [None] for a nil
    reader and [Some buf] for a [*bytes.Buffer] holding [buf]. *)
Definition http_NewRequest (method url : string) (body : option string)
  : result Request :=
  let method := if nonempty method then method else "GET" in
  if validMethod method then
    u ← url_Parse url;
    Ok {| Method := method; ReqURL := set_Host (trim_colon (Host u)) u;
          ReqHeader := ∅; ReqBody := body |}
  else Err (LibError "net/http: invalid method").

Definition set_ReqHeader (h : gmap string (list string)) (r : Request)
  : Request :=
  {| Method := Method r; ReqURL := ReqURL r; ReqHeader := h;
     ReqBody := ReqBody r |}.

Definition is_bodyless (method : string) : bool :=
  bool_decide (method ∈ [MethodGet; MethodHead; MethodOptions]).

(** The headers every request gets, on top of those set while it was
    built: [for k, v := range c.headers { req.Header.Add(k, v) }], then
    [Accept] and [User-Agent]. *)
Definition apply_headers (c : Client) (h : gmap string (list string))
  : gmap string (list string) :=
  let h := map_fold (λ k v h, Header_Add k v h) h (headers c) in
  let h := Header_Set "Accept" mediaType h in
  Header_Set "User-Agent" (UserAgent c) h.

(** [Client.NewRequest]; [body] is [None] for the nil interface. *)
Definition NewRequest (c : Client) (method urlStr : string)
    (body : option Value) : result Request :=
  u ← URL_Parse (BaseURL c) urlStr;
  req ← (if is_bodyless method then
           http_NewRequest method (URL_String u) None
         else
           buf ← match body with
                 | Some b => json_Encode b
                 | None => Ok ""
                 end;
           req ← http_NewRequest method (URL_String u) (Some buf);
           Ok (set_ReqHeader
                 (Header_Set "Content-Type" mediaType (ReqHeader req)) req));
  Ok (set_ReqHeader (apply_headers c (ReqHeader req)) req).

(** *** Query options *)

(** [v.Kind() == reflect.Ptr && v.IsNil()] *)
Definition is_nil_pointer (opt : optArg Options) : bool :=
  match opt with
  | OptPointer None => true
  | _ => false
  end.

(** [for k, v := range newValues { origValues[k] = v }] *)
Definition merge_values (origValues newValues : gmap string (list string))
  : gmap string (list string) :=
  map_fold (λ k v acc, <[k := v]> acc) origValues newValues.

Definition addOptions (s : string) (opt : optArg Options)
  : string * option error :=
  if is_nil_pointer opt then (s, None)
  else
    match url_Parse s with
    | Err e => (s, Some e)
    | Ok origURL =>
        let origValues := URL_Query origURL in
        match query_Values opt with
        | Err e => (s, Some e)
        | Ok newValues =>
            let origValues := merge_values origValues newValues in
            (URL_String (set_RawQuery (Values_Encode origValues) origURL),
             None)
        end
    end.

End Requests.

(** ** Effects: exchanges with the server and what is done to bodies *)

Inductive event : Type :=
| EvSend (req : Request)
| EvCompleted (req : Request) (resp : Response)
| EvCopy
| EvDecode
| EvClose.

(** [sent] counts the exchanges made so far; [log] lists the events, the
    oldest first. *)
Record World := mkWorld {
  sent : nat;
  log : list event
}.

Definition World0 : World := {| sent := 0; log := [] |}.

(** A call returns, panics (Go's run-time panic) or, when the loop of [Do]
    uses up its fuel, is still running. *)
Inductive outcome (A : Type) : Type :=
| Returns (a : A) (w : World)
| Panics (msg : string) (w : World)
| Running.
Arguments Returns {A} a w.
Arguments Panics {A} msg w.
Arguments Running {A}.

(** The world a call leaves when it ends, by a return or by a panic. *)
Definition final_world {A} (o : outcome A) : option World :=
  match o with
  | Returns _ w | Panics _ w => Some w
  | Running => None
  end.

Record M (A : Type) : Type := mkM { run : World → outcome A }.
Arguments mkM {A} run.
Arguments run {A} m w.

#[global] Instance M_ret : MRet M := λ A a, mkM (λ w, Returns a w).
#[global] Instance M_bind : MBind M := λ A B k m,
  mkM (λ w, match run m w with
            | Returns a w' => run (k a) w'
            | Panics msg w' => Panics msg w'
            | Running => Running
            end).

Definition panic {A} (msg : string) : M A := mkM (λ w, Panics msg w).

(** The loop of [Do] has used up its fuel. *)
Definition out_of_fuel {A} : M A := mkM (λ _, Running).

Definition emit (e : event) : M unit :=
  mkM (λ w, Returns tt {| sent := sent w; log := log w ++ [e] |}).

Definition nil_dereference : string :=
  "runtime error: invalid memory address or nil pointer dereference".

(** *** Bodies *)

Fixpoint drop_bytes (n : nat) (s : string) : string :=
  match n, s with
  | S n', String _ s' => drop_bytes n' s'
  | _, _ => s
  end.

Fixpoint take_bytes (n : nat) (s : string) : string :=
  match n, s with
  | S n', String c s' => String c (take_bytes n' s')
  | _, _ => EmptyString
  end.

Definition set_unread (s : string) (b : Body) : Body :=
  {| unread := s; readErr := readErr b; closeErr := closeErr b;
     closed := closed b |}.

(** [ioutil.ReadAll(body)]: everything left, and the read error if any. *)
Definition ioutil_ReadAll (b : Body) : Body * string * option string :=
  (set_unread "" b, unread b, readErr b).

(** [io.CopyN(ioutil.Discard, body, n)]: at most [n] bytes are read and
    dropped; a body shorter than [n] ends in its read error or in EOF. *)
Definition io_CopyN_Discard (b : Body) (n : Z) : Body * option string :=
  (set_unread (drop_bytes (Z.to_nat n) (unread b)) b,
   if (Z.of_nat (String.length (unread b)) <? n)
   then Some (default "EOF" (readErr b)) else None).

(** [body.Close()] *)
Definition Body_Close (b : Body) : Body * option string :=
  ({| unread := unread b; readErr := readErr b; closeErr := closeErr b;
      closed := true |}, closeErr b).

(** [io.Copy(w, body)]: chunks of up to 32 KiB are read and written until
    the body ends; the first failing [Write] stops the copy, and a read
    error other than EOF is returned once what came before it is written. *)
Definition io_Copy (w : Writer) (b : Body) : Writer * Body * option string :=
  match unread b with
  | EmptyString => (w, b, readErr b)
  | _ =>
      match writeErr w with
      | Some e => (w, set_unread (drop_bytes (Z.to_nat 32768) (unread b)) b, Some e)
      | None =>
          ({| written := written w +:+ unread b; writeErr := None |},
           set_unread "" b, readErr b)
      end
  end.

(** ** Sending a request and handling the response *)

Section Responses.
Context {Value Options : Type} `{!GoLib Value Options}.

(** [CheckResponse].  Besides the error it gives the response as the call
    leaves it, and whether the body of the response is nil afterwards: the
    body of a response outside the 200 range is read, and the decoder is
    handed an error that points to the response. *)
Definition CheckResponse (r : Response) : Response * bool * option error :=
  let c := StatusCode r in
  if (200 <=? c) && (c <=? 299) then (r, false, None)
  else
    let '(body, data, err) := ioutil_ReadAll (RespBody r) in
    let r := set_RespBody body r in
    let unset := {| ErrResponse := TheResponse r; Message := ""; Code := 0 |} in
    match err with
    | None =>
        if nonempty data then
          let u := json_Unmarshal data r in
          let r := set_RespBody body (um_response u) in
          let message :=
            match um_err u with
            | Some _ => data
            | None => um_Message u
            end in
          (r, um_body_nil u,
           Some (ApiError {| ErrResponse :=
                               match um_pointer u with
                               | KeepsResponse => TheResponse r
                               | SetsNil => NoResponse
                               | SetsOther o => OtherResponse o
                               end;
                             Message := message; Code := um_Code u |}))
        else (r, false, Some (ApiError unset))
    | Some _ => (r, false, Some (ApiError unset))
    end.

(** [DoRequestWithClient]: one exchange through the client. *)
Definition DoRequestWithClient (client : Transport) (req : Request)
  : M (option Response * option error) :=
  mkM (λ w, Returns (client (sent w) req)
                    {| sent := S (sent w); log := log w ++ [EvSend req] |}).

(** [for resp.StatusCode == 202 { resp, err = DoRequestWithClient(...) }]:
    the condition reads a field of [resp], whatever [err] is. *)
Fixpoint retry_while_202 (fuel : nat) (c : Client) (req : Request)
    (resp : option Response) (err : option error)
  : M (Response * option error) :=
  match resp with
  | None => panic nil_dereference
  | Some r =>
      if StatusCode r =? 202 then
        match fuel with
        | O => out_of_fuel
        | S fuel' =>
            '(resp', err') ← DoRequestWithClient (http_client c) req;
            retry_while_202 fuel' c req resp' err'
        end
      else mret (r, err)
  end.

(** [2 << 10] *)
Definition maxBodySlurpSize : Z := Z.shiftl 2 10.

(** The drain of the deferred closure:
    [if resp.ContentLength == -1 || resp.ContentLength <= maxBodySlurpSize
       { io.CopyN(ioutil.Discard, resp.Body, maxBodySlurpSize) }],
    whose results are dropped. *)
Definition drain (resp : Response) : Body :=
  if (ContentLength resp =? -1) || (ContentLength resp <=? maxBodySlurpSize)
  then fst (io_CopyN_Discard (RespBody resp) maxBodySlurpSize)
  else RespBody resp.

(** The response once drained and closed. *)
Definition released (resp : Response) : Response :=
  set_RespBody (fst (Body_Close (drain resp))) resp.

(** The deferred closure of [Do]: the drain, the close, and the assignment
    of the close error to the local variable [err] when that is nil.  It
    gives the response afterwards and the final value of [err]. *)
Definition drain_and_close (resp : Response) (err : option error)
  : M (Response * option error) :=
  let rerr := snd (Body_Close (drain resp)) in
  _ ← emit EvClose;
  mret (released resp,
        match err with
        | None => LibError <$> rerr
        | Some _ => err
        end).

(** [Do] from the registration of the deferred closure to its return
    statement: whether the wrapper [response] is returned (or nil), the
    error returned, the response and destination as they are then, and
    whether the body of the response is nil by then. *)
Definition handle (resp : Response) (v : dest Value)
  : M (bool * option error * Response * dest Value * bool) :=
  let '(resp, body_nil, err) := CheckResponse resp in
  match err with
  | Some e => mret (true, Some e, resp, v, body_nil)
  | None =>
      match v with
      | DestNil => mret (true, None, resp, v, body_nil)
      | DestWriter w =>
          _ ← emit EvCopy;
          let '(w, body, err) := io_Copy w (RespBody resp) in
          match err with
          | Some e =>
              mret (false, Some (LibError e), set_RespBody body resp,
                    DestWriter w, body_nil)
          | None =>
              mret (true, None, set_RespBody body resp, DestWriter w, body_nil)
          end
      | DestValue x =>
          _ ← emit EvDecode;
          let body := RespBody resp in
          let '(n, x, err) := json_Decode (unread body) (readErr body) x in
          let resp :=
            set_RespBody (set_unread (drop_bytes n (unread body)) body) resp in
          match err with
          | Some e => mret (false, Some (LibError e), resp, DestValue x, body_nil)
          | None => mret (true, None, resp, DestValue x, body_nil)
          end
      end
  end.

(** An [ErrorResponse] that points to the response [Do] goes on draining
    and closing shows that response in its final state. *)
Definition seen_through (resp : Response) (err : option error)
  : option error :=
  match err with
  | Some (ApiError e) =>
      match ErrResponse e with
      | TheResponse _ =>
          Some (ApiError {| ErrResponse := TheResponse resp;
                            Message := Message e; Code := Code e |})
      | _ => err
      end
  | _ => err
  end.

(** The deferred closure run on the response as [Do] leaves it: with a
    nil body both [io.CopyN] and [Close] dereference nil, whatever the
    content length. *)
Definition run_deferred (body_nil : bool) (resp : Response)
    (err : option error) : M (Response * option error) :=
  if body_nil then panic nil_dereference else drain_and_close resp err.

(** [Client.Do] once the loop is left, with the response and error of the
    last exchange.  The results of [Do] are unnamed: a return statement
    stores the value of [err] in the result before the deferred closure
    runs, and what the closure assigns to the local variable [err] is not
    returned. *)
Definition complete (c : Client) (req : Request) (resp : Response)
    (err : option error) (v : dest Value)
  : M (option Response * option error * dest Value) :=
  match err with
  | Some e => mret (None, Some e, v)
  | None =>
      _ ← (if onRequestCompleted c then emit (EvCompleted req resp)
           else mret tt);
      '(wrapped, returned_err, resp, v, body_nil) ← handle resp v;
      '(resp, _) ← run_deferred body_nil resp returned_err;
      mret (if wrapped : bool then Some resp else None,
            seen_through resp returned_err, v)
  end.

(** [Client.Do] *)
Definition Do (fuel : nat) (c : Client) (req : Request) (v : dest Value)
  : M (option Response * option error * dest Value) :=
  '(resp, err) ← DoRequestWithClient (http_client c) req;
  '(resp, err) ← retry_while_202 fuel c req resp err;
  complete c req resp err v.

(** The exchanges numbered [start], ..., [start + n - 1] give responses of
    status 202 and exchange [start + n] gives [r], of another status, and
    no error. *)
Definition settles (t : Transport) (req : Request) (start n : nat)
    (r : Response) : Prop :=
  (∀ i, (i < n)%nat →
        ∃ ri ei, t (start + i)%nat req = (Some ri, ei) ∧ StatusCode ri = 202)
  ∧ t (start + n)%nat req = (Some r, None)
  ∧ StatusCode r ≠ 202.

(** The world after [k] more exchanges carrying [req]. *)
Definition after_sends (k : nat) (req : Request) (w : World) : World :=
  {| sent := sent w + k; log := log w ++ replicate k (EvSend req) |}.

(** Two responses that differ at most in how far their body is consumed. *)
Definition same_response (r r' : Response) : Prop :=
  StatusCode r' = StatusCode r ∧ RespHeader r' = RespHeader r
  ∧ ContentLength r' = ContentLength r ∧ RespRequest r' = RespRequest r.

End Responses.

(** ** Resource services *)

(** Modelled from the spec: [NewArgError] is declared outside the given
    sources; the spec names its result [ArgumentError], raised for an empty
    required identifier or a null required request body.  It is taken to
    record the argument and the reason it is given. *)
Definition NewArgError (arg reason : string) : error := ArgError arg reason.

Definition blueprintBasePath : string := "blueprint".
Definition awsAccountBasePath : string := "aws/account".
Definition userBasePath : string := "user".

(** [BlueprintExportRequest]; [ExportParameters] is a pointer. *)
Record BlueprintExportRequest (Options : Type) := mkBlueprintExportRequest {
  Format : string;
  ExportParameters : option Options
}.
Arguments Format {Options} _.
Arguments ExportParameters {Options} _.

Record AwsAccountSnapshotRequest (Options : Type) := mkAwsAccountSnapshotRequest {
  SnapshotFormat : string;
  Region : string;
  SnapshotParameters : option Options
}.
Arguments SnapshotFormat {Options} _.
Arguments Region {Options} _.
Arguments SnapshotParameters {Options} _.

(** [fmt.Sprintf("%d", s)] for a string [s]: the verb does not fit. *)
Definition Sprintf_d_string (s : string) : string :=
  "%!d(string=" +:+ s +:+ ")".

Section Services.
Context {Value Options : Type} `{!GoLib Value Options}.

(** What every operation does once its path is known: build the request,
    send it with a fresh value of the result type as destination, and
    return that value unless [Do] failed. *)
Definition request_into (fuel : nat) (c : Client) (method path : string)
    (body : option Value) (target : Value)
  : M (option Value * option Response * option error) :=
  match NewRequest c method path body with
  | Err e => mret (None, None, Some e)
  | Ok req =>
      '(resp, err, v) ← Do fuel c req (DestValue target);
      match err with
      | Some e => mret (None, resp, Some e)
      | None =>
          mret (match v with DestValue x => Some x | _ => None end, resp, None)
      end
  end.

Definition request_only (fuel : nat) (c : Client) (method path : string)
  : M (option Response * option error) :=
  match NewRequest c method path None with
  | Err e => mret (None, Some e)
  | Ok req =>
      '(resp, err, _) ← Do fuel c req DestNil;
      mret (resp, err)
  end.

(** Fresh values of the result types ([new(Blueprint)] and the like) and
    the slice field read off a decoded root, [None] when that slice is nil
    (the body held no such array). *)
Variables new_BlueprintsRoot new_Blueprint new_BlueprintImage : Value.
Variables new_AwsAccountsRoot new_AwsAccount new_AwsAccountSnapshot : Value.
Variables new_AwsAccountIamParameters new_User : Value.
Variables root_Blueprints root_AwsAccounts : Value → option Value.

(** *** Blueprints *)


Definition Blueprints_Get (fuel : nat) (c : Client) (blueprintId : string)
  : M (option Value * option Response * option error) :=
  if negb (nonempty blueprintId)
  then mret (None, None, Some (NewArgError "blueprintId" "cannot be empty"))
  else
    let path := blueprintBasePath +:+ "/" +:+ blueprintId in
    request_into fuel c MethodGet path None new_Blueprint.

Definition Blueprints_Create (fuel : nat) (c : Client)
    (createRequest : option Value)
  : M (option Value * option Response * option error) :=
  match createRequest with
  | None => mret (None, None, Some (NewArgError "createRequest" "cannot be nil"))
  | Some body =>
      let path := blueprintBasePath in
      request_into fuel c MethodPost path (Some body) new_Blueprint
  end.

Definition Blueprints_Update (fuel : nat) (c : Client) (blueprintId : string)
    (updateRequest : option Value)
  : M (option Value * option Response * option error) :=
  if negb (nonempty blueprintId)
  then mret (None, None, Some (NewArgError "blueprintId" "cannot be empty"))
  else
    match updateRequest with
    | None =>
        mret (None, None, Some (NewArgError "updateRequest" "cannot be nil"))
    | Some body =>
        let path := blueprintBasePath in
        request_into fuel c MethodPut path (Some body) new_Blueprint
    end.

Definition Blueprints_Delete (fuel : nat) (c : Client) (blueprintId : string)
  : M (option Response * option error) :=
  if negb (nonempty blueprintId)
  then mret (None, Some (NewArgError "blueprintId" "cannot be empty"))
  else
    let path := blueprintBasePath +:+ "/" +:+ blueprintId in
    request_only fuel c MethodDelete path.

(** [Export] reads [exportRequest.Format] and
    [exportRequest.ExportParameters] without a nil check. *)
Definition Blueprints_Export (fuel : nat) (c : Client) (blueprintId : string)
    (exportRequest : option (BlueprintExportRequest Options))
  : M (option Value * option Response * option error) :=
  if negb (nonempty blueprintId)
  then mret (None, None, Some (NewArgError "blueprintId" "cannot be empty"))
  else
    match exportRequest with
    | None => panic nil_dereference
    | Some er =>
        let '(path, err) :=
          addOptions (blueprintBasePath +:+ "/" +:+ blueprintId +:+ "/"
                      +:+ Format er)
                     (OptPointer (ExportParameters er)) in
        match err with
        | Some e => mret (None, None, Some e)
        | None => request_into fuel c MethodGet path None new_BlueprintImage
        end
    end.

(** *** AWS accounts *)


Definition AwsAccounts_Get (fuel : nat) (c : Client) (awsAccountID : string)
  : M (option Value * option Response * option error) :=
  if negb (nonempty awsAccountID)
  then mret (None, None, Some (NewArgError "awsAccountID" "cannot be empty"))
  else
    let path := awsAccountBasePath +:+ "/" +:+ awsAccountID in
    request_into fuel c MethodGet path None new_AwsAccount.

Definition AwsAccounts_Create (fuel : nat) (c : Client)
    (createRequest : option Value)
  : M (option Value * option Response * option error) :=
  match createRequest with
  | None => mret (None, None, Some (NewArgError "createRequest" "cannot be nil"))
  | Some body =>
      let path := awsAccountBasePath in
      request_into fuel c MethodPost path (Some body) new_AwsAccount
  end.

Definition AwsAccounts_Update (fuel : nat) (c : Client) (awsAccountID : string)
    (updateRequest : option Value)
  : M (option Value * option Response * option error) :=
  if negb (nonempty awsAccountID)
  then mret (None, None, Some (NewArgError "awsAccountID" "cannot be empty"))
  else
    match updateRequest with
    | None =>
        mret (None, None, Some (NewArgError "updateRequest" "cannot be nil"))
    | Some body =>
        let path := awsAccountBasePath +:+ "/" +:+ awsAccountID in
        request_into fuel c MethodPut path (Some body) new_AwsAccount
    end.

Definition AwsAccounts_Delete (fuel : nat) (c : Client) (awsAccountID : string)
  : M (option Response * option error) :=
  if negb (nonempty awsAccountID)
  then mret (None, Some (NewArgError "awsAccountID" "cannot be empty"))
  else
    let path := awsAccountBasePath +:+ "/" +:+ awsAccountID in
    request_only fuel c MethodDelete path.

(** [Snapshot] reads the fields of [snapshotRequest] without a nil check. *)
Definition AwsAccounts_Snapshot (fuel : nat) (c : Client)
    (awsAccountID : string)
    (snapshotRequest : option (AwsAccountSnapshotRequest Options))
  : M (option Value * option Response * option error) :=
  if negb (nonempty awsAccountID)
  then mret (None, None, Some (NewArgError "awsAccountID" "cannot be empty"))
  else
    match snapshotRequest with
    | None => panic nil_dereference
    | Some sr =>
        let '(path, err) :=
          addOptions (awsAccountBasePath +:+ "/" +:+ awsAccountID +:+ "/"
                      +:+ Region sr +:+ "/" +:+ SnapshotFormat sr)
                     (OptPointer (SnapshotParameters sr)) in
        match err with
        | Some e => mret (None, None, Some e)
        | None =>
            request_into fuel c MethodGet path None new_AwsAccountSnapshot
        end
    end.


(** *** Users *)

Definition Users_Get (fuel : nat) (c : Client) (userID : string)
  : M (option Value * option Response * option error) :=
  if negb (nonempty userID)
  then mret (None, None, Some (NewArgError "userID" "cannot be empty"))
  else
    let path := userBasePath +:+ "/" +:+ Sprintf_d_string userID in
    request_into fuel c MethodGet path None new_User.


End Services.

(** ** [encoding/json]: decoding an error body

    How [json.Unmarshal] fills an [ErrorResponse] that points to a
    response, for a fragment of JSON: texts written in ASCII without [\u]
    escapes, in which a member that names the [Response] field holds
    null, or, as long as no earlier member has set the pointer to nil, a
    value that is not an object or an object whose members name, of the
    fields of [http.Response], only [StatusCode], [ContentLength], [Body]
    (with null) and [Request] (with null).  [Unmarshal] gives [None] for a
    text outside the fragment. *)

Module GoJSON.

#[warnings="-register-all"]
Inductive json : Type :=
| JNull
| JBool (b : bool)
| JNumber (literal : string)
| JString (s : string)
| JArray (elements : list json)
| JObject (members : list (string * json)).

Inductive token : Type :=
| TLBrace | TRBrace | TLBracket | TRBracket | TColon | TComma
| TStr (s : string)
| TNum (literal : string)
| TTrue | TFalse | TNull.

Definition byte_of (n : N) : ascii := Ascii.ascii_of_N n.

Definition is_space (c : ascii) : bool :=
  bool_decide (Ascii.N_of_ascii c ∈ [32; 9; 10; 13]%N).

(** The character an escape stands for. *)
Definition unescape (c : ascii) : option ascii :=
  let n := Ascii.N_of_ascii c in
  if (n =? 34)%N then Some c              (* quote *)
  else if (n =? 92)%N then Some c         (* backslash *)
  else if (n =? 47)%N then Some c         (* slash *)
  else if (n =? 98)%N then Some (byte_of 8)
  else if (n =? 102)%N then Some (byte_of 12)
  else if (n =? 110)%N then Some (byte_of 10)
  else if (n =? 114)%N then Some (byte_of 13)
  else if (n =? 116)%N then Some (byte_of 9)
  else None.

(** The rest of a string literal after its opening quote: its value and
    the text after the closing quote. *)
Fixpoint lex_string (s : string) : option (string * string) :=
  match s with
  | EmptyString => None
  | String c rest =>
      let n := Ascii.N_of_ascii c in
      if (n =? 34)%N then Some (EmptyString, rest)
      else if (n =? 92)%N then
        match rest with
        | String e rest' =>
            match unescape e, lex_string rest' with
            | Some c', Some (str, r) => Some (String c' str, r)
            | _, _ => None
            end
        | EmptyString => None
        end
      else if (n <? 32)%N || (128 <=? n)%N then None
      else
        match lex_string rest with
        | Some (str, r) => Some (String c str, r)
        | None => None
        end
  end.

Definition is_number_byte (c : ascii) : bool :=
  is_digit c || bool_decide (c ∈ list_ascii_of_string "+-.eE").

(** The longest run of number characters at the head of a text. *)
Fixpoint span_number (s : string) : string * string :=
  match s with
  | String c rest =>
      if is_number_byte c then
        let '(lit, r) := span_number rest in (String c lit, r)
      else (EmptyString, s)
  | EmptyString => (EmptyString, EmptyString)
  end.

Fixpoint skip_digits (s : string) : string :=
  match s with
  | String c rest => if is_digit c then skip_digits rest else s
  | EmptyString => EmptyString
  end.

Definition starts_with_digit (s : string) : bool :=
  match s with String c _ => is_digit c | EmptyString => false end.

(** The grammar of a JSON number: an optional minus sign; a zero, or a
    digit other than zero and more digits; optionally a point and digits;
    optionally an exponent: e or E, an optional sign, digits. *)
Definition valid_number (lit : string) : bool :=
  let s := match lit with String "-"%char r => r | _ => lit end in
  let after_int :=
    match s with
    | String "0"%char r => Some r
    | String c r => if is_digit c then Some (skip_digits r) else None
    | EmptyString => None
    end in
  match after_int with
  | None => false
  | Some s =>
      let after_frac :=
        match s with
        | String "."%char r =>
            if starts_with_digit r then Some (skip_digits r) else None
        | _ => Some s
        end in
      match after_frac with
      | None => false
      | Some s =>
          match s with
          | EmptyString => true
          | String e r =>
              if bool_decide (e ∈ list_ascii_of_string "eE") then
                let r := match r with
                         | String "+"%char r' => r'
                         | String "-"%char r' => r'
                         | _ => r
                         end in
                starts_with_digit r && negb (nonempty (skip_digits r))
              else false
          end
      end
  end.

Definition strip_prefix (p s : string) : option string :=
  if String.prefix p s then Some (drop_bytes (String.length p) s) else None.

Fixpoint lex (fuel : nat) (s : string) : option (list token) :=
  match fuel with
  | O => None
  | S fuel' =>
      match s with
      | EmptyString => Some []
      | String c rest =>
          let n := Ascii.N_of_ascii c in
          let one (t : token) := cons t <$> lex fuel' rest in
          if is_space c then lex fuel' rest
          else if (n =? 123)%N then one TLBrace
          else if (n =? 125)%N then one TRBrace
          else if (n =? 91)%N then one TLBracket
          else if (n =? 93)%N then one TRBracket
          else if (n =? 58)%N then one TColon
          else if (n =? 44)%N then one TComma
          else if (n =? 34)%N then
            match lex_string rest with
            | Some (str, r) => cons (TStr str) <$> lex fuel' r
            | None => None
            end
          else if is_digit c || (n =? 45)%N then
            let '(lit, r) := span_number s in
            if valid_number lit then cons (TNum lit) <$> lex fuel' r else None
          else
            match strip_prefix "true" s, strip_prefix "false" s,
                  strip_prefix "null" s with
            | Some r, _, _ => cons TTrue <$> lex fuel' r
            | _, Some r, _ => cons TFalse <$> lex fuel' r
            | _, _, Some r => cons TNull <$> lex fuel' r
            | _, _, _ => None
            end
      end
  end.

(** One value at the head of the tokens; [parse_elements] and
    [parse_members] read what follows [[] and [{]. *)
Fixpoint parse_value (fuel : nat) (ts : list token)
  : option (json * list token) :=
  match fuel with
  | O => None
  | S fuel' =>
      match ts with
      | TNull :: r => Some (JNull, r)
      | TTrue :: r => Some (JBool true, r)
      | TFalse :: r => Some (JBool false, r)
      | TNum lit :: r => Some (JNumber lit, r)
      | TStr s :: r => Some (JString s, r)
      | TLBracket :: TRBracket :: r => Some (JArray [], r)
      | TLBracket :: r =>
          '(l, r') ← parse_elements fuel' r; Some (JArray l, r')
      | TLBrace :: TRBrace :: r => Some (JObject [], r)
      | TLBrace :: r =>
          '(l, r') ← parse_members fuel' r; Some (JObject l, r')
      | _ => None
      end
  end
with parse_elements (fuel : nat) (ts : list token)
  : option (list json * list token) :=
  match fuel with
  | O => None
  | S fuel' =>
      '(v, r) ← parse_value fuel' ts;
      match r with
      | TRBracket :: r' => Some ([v], r')
      | TComma :: r' =>
          '(l, r'') ← parse_elements fuel' r'; Some (v :: l, r'')
      | _ => None
      end
  end
with parse_members (fuel : nat) (ts : list token)
  : option (list (string * json) * list token) :=
  match fuel with
  | O => None
  | S fuel' =>
      match ts with
      | TStr k :: TColon :: r =>
          '(v, r') ← parse_value fuel' r;
          match r' with
          | TRBrace :: r'' => Some ([(k, v)], r'')
          | TComma :: r'' =>
              '(l, r''') ← parse_members fuel' r''; Some ((k, v) :: l, r''')
          | _ => None
          end
      | _ => None
      end
  end.

(** A whole text as one JSON value, or [None] on a syntax error. *)
Definition parse (data : string) : option json :=
  ts ← lex (S (String.length data)) data;
  '(v, rest) ← parse_value (S (length ts)) ts;
  match rest with
  | [] => Some v
  | _ => None
  end.

(** *** Storing the value into the struct *)

Fixpoint fold_case (s : string) : string :=
  match s with
  | EmptyString => EmptyString
  | String c rest => String (to_lower c) (fold_case rest)
  end.

(** A member's key selects the field of that JSON name, by an exact match
    or else whatever the case of its letters. *)
Definition names_field (key field : string) : bool :=
  bool_decide (fold_case key = fold_case field).

Fixpoint digits_value (acc : Z) (s : string) : option Z :=
  match s with
  | EmptyString => Some acc
  | String c rest =>
      if is_digit c
      then digits_value (10 * acc + Z.of_N (Ascii.N_of_ascii c - 48)) rest
      else None
  end.

(** [strconv.ParseInt(s, 10, 64)] followed by the overflow check for a
    field of type [int]. *)
Definition ParseInt (lit : string) : option Z :=
  n ← match lit with
      | String "-"%char r =>
          if nonempty r then Z.opp <$> digits_value 0 r else None
      | _ => if nonempty lit then digits_value 0 lit else None
      end;
  if (- 2 ^ 63 <=? n) && (n <? 2 ^ 63) then Some n else None.

Definition type_error : error :=
  LibError "json: cannot unmarshal value into Go struct field of ErrorResponse".
Definition syntax_error : error :=
  LibError "json: invalid character or unexpected end of JSON input".

(** The decoder keeps the earliest type error and goes on. *)
Definition save_error (saved : option error) : option error :=
  match saved with
  | Some e => Some e
  | None => Some type_error
  end.

Definition set_status (n : Z) (r : Response) : Response :=
  {| StatusCode := n; RespHeader := RespHeader r;
     ContentLength := ContentLength r; RespBody := RespBody r;
     RespRequest := RespRequest r |}.

Definition set_length (n : Z) (r : Response) : Response :=
  {| StatusCode := StatusCode r; RespHeader := RespHeader r;
     ContentLength := n; RespBody := RespBody r;
     RespRequest := RespRequest r |}.

Definition set_request (q : option Request) (r : Response) : Response :=
  {| StatusCode := StatusCode r; RespHeader := RespHeader r;
     ContentLength := ContentLength r; RespBody := RespBody r;
     RespRequest := q |}.

Definition with_response (r : Response) (u : Unmarshalled) : Unmarshalled :=
  {| um_response := r; um_body_nil := um_body_nil u;
     um_pointer := um_pointer u; um_Message := um_Message u;
     um_Code := um_Code u; um_err := um_err u |}.

Definition with_body_nil (u : Unmarshalled) : Unmarshalled :=
  {| um_response := um_response u; um_body_nil := true;
     um_pointer := um_pointer u; um_Message := um_Message u;
     um_Code := um_Code u; um_err := um_err u |}.

Definition with_pointer (p : pointer_written) (u : Unmarshalled)
  : Unmarshalled :=
  {| um_response := um_response u; um_body_nil := um_body_nil u;
     um_pointer := p; um_Message := um_Message u;
     um_Code := um_Code u; um_err := um_err u |}.

Definition with_Message (m : string) (u : Unmarshalled) : Unmarshalled :=
  {| um_response := um_response u; um_body_nil := um_body_nil u;
     um_pointer := um_pointer u; um_Message := m;
     um_Code := um_Code u; um_err := um_err u |}.

Definition with_Code (n : Z) (u : Unmarshalled) : Unmarshalled :=
  {| um_response := um_response u; um_body_nil := um_body_nil u;
     um_pointer := um_pointer u; um_Message := um_Message u;
     um_Code := n; um_err := um_err u |}.

Definition with_err_syntax (u : Unmarshalled) : Unmarshalled :=
  {| um_response := um_response u; um_body_nil := um_body_nil u;
     um_pointer := um_pointer u; um_Message := um_Message u;
     um_Code := um_Code u; um_err := Some syntax_error |}.

(** A value that does not fit its field: the error is kept, the field is
    skipped. *)
Definition mismatch (u : Unmarshalled) : Unmarshalled :=
  {| um_response := um_response u; um_body_nil := um_body_nil u;
     um_pointer := um_pointer u; um_Message := um_Message u;
     um_Code := um_Code u; um_err := save_error (um_err u) |}.

(** A JSON value stored into an integer field. *)
Definition store_int (v : json) (set : Z → Unmarshalled → Unmarshalled)
    (u : Unmarshalled) : Unmarshalled :=
  match v with
  | JNumber lit =>
      match ParseInt lit with
      | Some n => set n u
      | None => mismatch u
      end
  | JNull => u
  | _ => mismatch u
  end.

(** The fields of [http.Response] that this model leaves out. *)
Definition other_response_fields : list string :=
  ["Status"; "Proto"; "ProtoMajor"; "ProtoMinor"; "Header";
   "TransferEncoding"; "Close"; "Uncompressed"; "Trailer"; "TLS"].

(** One member of an object decoded into the response the error points
    to: the response itself. *)
Definition store_response_member (u : Unmarshalled) (member : string * json)
  : option Unmarshalled :=
  let '(key, v) := member in
  if names_field key "StatusCode" then
    Some (store_int v (λ n u, with_response (set_status n (um_response u)) u) u)
  else if names_field key "ContentLength" then
    Some (store_int v (λ n u, with_response (set_length n (um_response u)) u) u)
  else if names_field key "Body" then
    match v with
    | JNull => Some (with_body_nil u)
    | _ => None
    end
  else if names_field key "Request" then
    match v with
    | JNull => Some (with_response (set_request None (um_response u)) u)
    | _ => None
    end
  else if existsb (names_field key) other_response_fields then None
  else Some u.

Fixpoint store_all {A} (store : Unmarshalled → A → option Unmarshalled)
    (u : Unmarshalled) (members : list A) : option Unmarshalled :=
  match members with
  | [] => Some u
  | m :: rest => u' ← store u m; store_all store u' rest
  end.

(** One member of the object decoded into the [ErrorResponse].  Null sets
    the [Response] pointer to nil; an object is decoded through the
    pointer. *)
Definition store_member (u : Unmarshalled) (member : string * json)
  : option Unmarshalled :=
  let '(key, v) := member in
  if names_field key "Response" then
    match v, um_pointer u with
    | JNull, _ => Some (with_pointer SetsNil u)
    | JObject members, KeepsResponse =>
        store_all store_response_member u members
    | _, KeepsResponse => Some (mismatch u)
    | _, _ => None
    end
  else if names_field key "error" then
    match v with
    | JString s => Some (with_Message s u)
    | JNull => Some u
    | _ => Some (mismatch u)
    end
  else if names_field key "code" then
    Some (store_int v with_Code u)
  else Some u.

(** No byte outside ASCII and no [\u] escape. *)
Definition in_fragment (data : string) : bool :=
  all_bytes (λ c, (Ascii.N_of_ascii c <? 128)%N) data
  && bool_decide (String.index 0 "\u" data = None).

(** [json.Unmarshal(data, errorResponse)] for [errorResponse] fresh and
    pointing to [r]: a text that is not valid JSON is refused before
    anything is stored; [null] stores nothing; an object is stored member
    by member; any other value does not fit the struct. *)
Definition Unmarshal (data : string) (r : Response) : option Unmarshalled :=
  let fresh := {| um_response := r; um_body_nil := false;
                  um_pointer := KeepsResponse; um_Message := "";
                  um_Code := 0; um_err := None |} in
  if in_fragment data then
    match parse data with
    | None => Some (with_err_syntax fresh)
    | Some JNull => Some fresh
    | Some (JObject members) => store_all store_member fresh members
    | Some _ => Some (mismatch fresh)
    end
  else None.

End GoJSON.

(** ** Sample data *)

(** A double quote, and a text between double quotes. *)
Definition dquote : string := String (Ascii.ascii_of_N 34) EmptyString.
Definition quoted (s : string) : string := dquote +:+ s +:+ dquote.

(** The body [{"error":"not found","code":404}]. *)
Definition body_not_found : string :=
  "{" +:+ quoted "error" +:+ ":" +:+ quoted "not found" +:+ ","
  +:+ quoted "code" +:+ ":404}".

(** The body [{"code":7,"error":5}]: valid JSON whose error member is not a
    string. *)
Definition body_mistyped : string :=
  "{" +:+ quoted "code" +:+ ":7," +:+ quoted "error" +:+ ":5}".

(** The body [{"Response":null,"error":"x"}]: the member named after the
    untagged field holds null. *)
Definition body_response_null : string :=
  "{" +:+ quoted "Response" +:+ ":null," +:+ quoted "error" +:+ ":"
  +:+ quoted "x" +:+ "}".

(** The body [{"Response":{"StatusCode":200}}]. *)
Definition body_response_status : string :=
  "{" +:+ quoted "Response" +:+ ":{" +:+ quoted "StatusCode" +:+ ":200}}".

(** The body [{"Response":{"Body":null}}]. *)
Definition body_response_body_null : string :=
  "{" +:+ quoted "Response" +:+ ":{" +:+ quoted "Body" +:+ ":null}}".

(** *** Stand-ins for the libraries

    Simple versions of the library functions, right on the plain inputs the
    examples below use: URLs of the form [scheme://host/path?query#fragment]
    or [path?query#fragment] without dot segments, and query strings made of
    characters that need no escaping. *)

Module Sample.

(** The text before the first occurrence of a separator and the text
    after it, if it occurs. *)
Definition cut (sep s : string) : string * option string :=
  match String.index 0 sep s with
  | Some i =>
      (take_bytes i s, Some (drop_bytes (i + String.length sep) s))
  | None => (s, None)
  end.

Definition is_control (c : ascii) : bool :=
  let n := Ascii.N_of_ascii c in (n <? 32)%N || (n =? 127)%N.

Definition parse_url (s : string) : result URL :=
  if negb (all_bytes (λ c, negb (is_control c)) s)
  then Err (LibError "net/url: invalid control character in URL")
  else
    let '(s, fragment) := cut "#" s in
    let '(s, query) := cut "?" s in
    match cut "://" s with
    | (scheme, Some rest) =>
        match String.index 0 "/" rest with
        | Some i =>
            Ok (mkURL scheme (take_bytes i rest) (drop_bytes i rest)
                      (default "" query) (default "" fragment))
        | None =>
            Ok (mkURL scheme rest "" (default "" query) (default "" fragment))
        end
    | (path, None) =>
        Ok (mkURL "" "" path (default "" query) (default "" fragment))
    end.

(** The path up to and including its last slash. *)
Fixpoint directory (path : string) : string :=
  match path with
  | EmptyString => EmptyString
  | String c rest =>
      match String.index 0 "/" rest, c with
      | None, "/"%char => "/"
      | None, _ => EmptyString
      | Some _, _ => String c (directory rest)
      end
  end.

Definition parse_reference (base : URL) (ref : string) : result URL :=
  r ← parse_url ref;
  if nonempty (Scheme r) then Ok r
  else if starts_with_slash (Path r) then
    Ok (mkURL (Scheme base) (Host base) (Path r) (RawQuery r) (Fragment r))
  else if nonempty (Path r) then
    Ok (mkURL (Scheme base) (Host base) (directory (Path base) +:+ Path r)
              (RawQuery r) (Fragment r))
  else
    Ok (mkURL (Scheme base) (Host base) (Path base)
              (if nonempty (RawQuery r) then RawQuery r else RawQuery base)
              (Fragment r)).

Fixpoint split_on (fuel : nat) (sep s : string) : list string :=
  match fuel with
  | O => [s]
  | S fuel' =>
      match cut sep s with
      | (piece, Some rest) => piece :: split_on fuel' sep rest
      | (piece, None) => [piece]
      end
  end.

Definition add_value (k v : string) (m : gmap string (list string))
  : gmap string (list string) :=
  <[k := default [] (m !! k) ++ [v]]> m.

Definition ParseQuery (q : string) : gmap string (list string) :=
  foldl (λ m pair,
           if nonempty pair then
             let '(k, v) := cut "=" pair in add_value k (default "" v) m
           else m)
        ∅ (split_on (String.length q) "&" q).

Definition query_of (u : URL) : gmap string (list string) :=
  ParseQuery (RawQuery u).

Fixpoint insert_sorted (kv : string * list string)
    (l : list (string * list string)) : list (string * list string) :=
  match l with
  | [] => [kv]
  | kv' :: rest =>
      if String.leb kv.1 kv'.1 then kv :: l else kv' :: insert_sorted kv rest
  end.

Definition join (sep : string) (l : list string) : string :=
  match l with
  | [] => ""
  | x :: rest => foldl (λ acc y, acc +:+ sep +:+ y) x rest
  end.

(** Keys in increasing order, each with its values in their order. *)
Definition encode_values (m : gmap string (list string)) : string :=
  join "&"
    (mbind (M:=list) (λ '(k, vs), (λ v, k +:+ "=" +:+ v) <$> vs)
       (foldr insert_sorted [] (map_to_list m))).

(** An options struct, given by the key and value of each tagged field. *)
Definition Options : Type := list (string * string).

Definition values_of (opt : optArg Options)
  : result (gmap string (list string)) :=
  match opt with
  | OptNil | OptPointer None => Ok ∅
  | OptPointer (Some o) | OptValue o =>
      Ok (foldl (λ m '(k, v), add_value k v m) ∅ o)
  end.

(** A Go value, given by its JSON text. *)
Definition Value : Type := string.

Definition newline : string := String (Ascii.ascii_of_N 10) EmptyString.

Definition encode_json (v : Value) : result string := Ok (v +:+ newline).

(** Decoding keeps the text of the body when it is one JSON value. *)
Definition decode_json (data : string) (rerr : option string) (v : Value)
  : nat * Value * option string :=
  match GoJSON.parse data, rerr with
  | Some _, _ => (String.length data, data, None)
  | None, Some e => (String.length data, v, Some e)
  | None, None => (String.length data, v, Some "json: syntax error")
  end.

(** The decoder of error bodies: the one of [GoJSON] and, for a text it
    does not cover, an error with nothing stored. *)
Definition unmarshal (data : string) (r : Response) : Unmarshalled :=
  default {| um_response := r; um_body_nil := false;
             um_pointer := KeepsResponse; um_Message := "";
             um_Code := 0;
             um_err := Some (LibError "json: text outside the sample decoder") |}
          (GoJSON.Unmarshal data r).

(** A default client without a network. *)
Definition no_network : Transport :=
  λ _ _, (None, Some (LibError "dial tcp: network is unreachable")).

#[global] Instance lib : GoLib Value Options := {|
  http_DefaultClient := no_network;
  url_Parse := parse_url;
  URL_Parse := parse_reference;
  URL_Query := query_of;
  Values_Encode := encode_values;
  query_Values := values_of;
  json_Encode := encode_json;
  json_Unmarshal := unmarshal;
  json_Decode := decode_json
|}.

End Sample.

(** ** The specification's wording, where it differs from the code *)

Section Stated.
Context {Value Options : Type} `{!GoLib Value Options}.

(** Body handling as the specification words it: a request for GET, HEAD
    or OPTIONS has no body and no Content-Type header; any other request
    has the JSON content type and the encoded body, empty for a nil one. *)
Definition body_handling_as_stated (c : Client) (method urlStr : string)
    (body : option Value) : Prop :=
  ∀ req, NewRequest c method urlStr body = Ok req →
    if is_bodyless method
    then ReqBody req = None ∧ ReqHeader req !! "Content-Type" = None
    else Header_Get "Content-Type" (ReqHeader req) = mediaType
         ∧ match body with
           | Some x => ∃ b, json_Encode x = Ok b ∧ ReqBody req = Some b
           | None => ReqBody req = Some ""
           end.

End Stated.

(** A request for one blueprint, as the transport echoes it in its
    responses. *)
Definition request_xyz : Request :=
  {| Method := MethodGet;
     ReqURL := mkURL "https" "api.cloudcraft.co" "/blueprint/xyz" "" "";
     ReqHeader := ∅; ReqBody := None |}.

(** A response to it with the given status and body, of known length,
    whose reads and close succeed. *)
Definition response_of (status : Z) (data : string) : Response :=
  {| StatusCode := status; RespHeader := ∅;
     ContentLength := Z.of_nat (String.length data);
     RespBody := mkBody data None None false;
     RespRequest := Some request_xyz |}.

(** The same response, on a connection whose close fails. *)
Definition response_close_fails (status : Z) (data : string) : Response :=
  set_RespBody (mkBody data None (Some "close: connection reset") false)
               (response_of status data).

(** A server that answers 202 twice and then 200 with an empty object. *)
Definition accepted_twice : Transport :=
  λ n _, if (n <? 2)%nat then (Some (response_of 202 ""), None)
         else (Some (response_of 200 "{}"), None).

(** A server that answers at once, with the given response. *)
Definition answers (r : Response) : Transport := λ _ _, (Some r, None).

(** A transport whose exchanges fail. *)
Definition unreachable : Transport :=
  λ _ _, (None, Some (LibError "dial tcp: connection refused")).

(** A client whose static headers name a content type. *)
Definition client_with_content_type : Client :=
  set_headers {[ "Content-Type" := "text/plain" ]} (NewClient None).

(** ** More sample data *)

(** A server that never leaves 202. *)
Definition always_accepted : Transport :=
  λ _ _, (Some (response_of 202 ""), None).

(** An exchange that hands over a response together with an error, as the
    HTTP client does when a redirect is refused. *)
Definition redirect_refused : Transport :=
  λ _ _, (Some (response_of 302 ""),
          Some (LibError "Get: stopped after 10 redirects")).

(** A server that answers 202 once, after which the connection fails. *)
Definition fails_after_accepted : Transport :=
  λ n _, if (n <? 1)%nat then (Some (response_of 202 ""), None)
         else (None, Some (LibError "read tcp: connection reset by peer")).

(** A path that does not parse: it ends in a line feed. *)
Definition path_with_line_feed : string := "blueprint" +:+ Sample.newline.

(** The stand-in libraries with an encoder that refuses every value, as
    [encoding/json] refuses a channel or a function. *)
Definition lib_without_encoder : GoLib Sample.Value Sample.Options := {|
  http_DefaultClient := Sample.no_network;
  url_Parse := Sample.parse_url;
  URL_Parse := Sample.parse_reference;
  URL_Query := Sample.query_of;
  Values_Encode := Sample.encode_values;
  query_Values := Sample.values_of;
  json_Encode := λ _, Err (LibError "json: unsupported type");
  json_Unmarshal := Sample.unmarshal;
  json_Decode := Sample.decode_json
|}.

(** The stand-in libraries with a query encoder that refuses every options
    value, as go-querystring refuses a value that is not a struct. *)
Definition lib_without_query : GoLib Sample.Value Sample.Options := {|
  http_DefaultClient := Sample.no_network;
  url_Parse := Sample.parse_url;
  URL_Parse := Sample.parse_reference;
  URL_Query := Sample.query_of;
  Values_Encode := Sample.encode_values;
  query_Values := λ _, Err (LibError "query: Values() expects struct input");
  json_Encode := Sample.encode_json;
  json_Unmarshal := Sample.unmarshal;
  json_Decode := Sample.decode_json
|}.


Section Operations.
Context {Value Options : Type} `{!GoLib Value Options}.





End Operations.

Example Unmarshal_not_found :
  GoJSON.Unmarshal body_not_found (response_of 404 "")
  = Some {| um_response := response_of 404 ""; um_body_nil := false;
            um_pointer := KeepsResponse; um_Message := "not found";
            um_Code := 404; um_err := None |}.
Proof. vm_compute. reflexivity. Qed.

Example Unmarshal_mistyped :
  GoJSON.Unmarshal body_mistyped (response_of 400 "")
  = Some {| um_response := response_of 400 ""; um_body_nil := false;
            um_pointer := KeepsResponse; um_Message := "";
            um_Code := 7; um_err := Some GoJSON.type_error |}.
Proof. vm_compute. reflexivity. Qed.

Example Unmarshal_not_json :
  GoJSON.Unmarshal "internal error" (response_of 500 "")
  = Some {| um_response := response_of 500 ""; um_body_nil := false;
            um_pointer := KeepsResponse; um_Message := "";
            um_Code := 0; um_err := Some GoJSON.syntax_error |}.
Proof. vm_compute. reflexivity. Qed.

Example Unmarshal_response_null :
  GoJSON.Unmarshal body_response_null (response_of 400 "")
  = Some {| um_response := response_of 400 ""; um_body_nil := false;
            um_pointer := SetsNil; um_Message := "x";
            um_Code := 0; um_err := None |}.
Proof. vm_compute. reflexivity. Qed.

Example Unmarshal_response_status :
  GoJSON.Unmarshal body_response_status (response_of 400 "")
  = Some {| um_response := GoJSON.set_status 200 (response_of 400 "");
            um_body_nil := false;
            um_pointer := KeepsResponse; um_Message := "";
            um_Code := 0; um_err := None |}.
Proof. vm_compute. reflexivity. Qed.

Example Unmarshal_response_body_null :
  GoJSON.Unmarshal body_response_body_null (response_of 400 "")
  = Some {| um_response := response_of 400 ""; um_body_nil := true;
            um_pointer := KeepsResponse; um_Message := "";
            um_Code := 0; um_err := None |}.
Proof. vm_compute. reflexivity. Qed.

Example sample_url_Parse :
  Sample.parse_url "https://api.cloudcraft.co/blueprint/xyz?a=1"
  = Ok (mkURL "https" "api.cloudcraft.co" "/blueprint/xyz" "a=1" "").
Proof. vm_compute. reflexivity. Qed.

Example sample_resolve :
  URL_String <$> Sample.parse_reference (mkURL "https" "api.cloudcraft.co" "/" "" "") "blueprint/xyz"
  = Ok "https://api.cloudcraft.co/blueprint/xyz".
Proof. vm_compute. reflexivity. Qed.

Example sample_addOptions :
  addOptions "blueprint/b1/png?width=1&grid=true"
    (OptPointer (Some [("width", "2"); ("height", "3")]))
  = ("blueprint/b1/png?grid=true&height=3&width=2", None).
Proof. vm_compute. reflexivity. Qed.

(** * Properties *)

Section RequestProperties.
Context {Value Options : Type} `{!GoLib Value Options}.

(** ** Client options *)

Lemma insert_fold_union {A} (m hs : gmap string A) :
  map_fold (λ k v acc, <[k := v]> acc) m hs = hs ∪ m.
Proof.
  apply (map_fold_weak_ind (λ r hs', r = hs' ∪ m)).
  - by rewrite (left_id_L ∅ (∪)).
  - intros i x m' r _ ->. by rewrite insert_union_l.
Qed.

Lemma NewFromToken_client (token : string) :
  NewFromToken token
  = Some (set_headers {[ "Authorization" := "Bearer" +:+ token ]}
                      (NewClient None)).
Proof.
  unfold NewFromToken, New. simpl. unfold SetRequestHeaders.
  rewrite insert_fold_union. simpl. by rewrite (right_id_L ∅ (∪)).
Qed.

(** ** Requests *)

Lemma http_NewRequest_fields (method url : string) (body : option string)
    (req : Request) :
  http_NewRequest method url body = Ok req →
  ReqHeader req = ∅ ∧ ReqBody req = body.
Proof.
  unfold http_NewRequest. destruct (validMethod _); [|done].
  destruct (url_Parse url); simpl; [|done]. by intros [= <-].
Qed.

(** What [NewRequest] returns: the request of [http.NewRequest] for the
    resolved URL, with the client's headers laid over the content type. *)
Lemma NewRequest_inv (c : Client) (method urlStr : string)
    (body : option Value) (req : Request) :
  NewRequest c method urlStr body = Ok req →
  ∃ u buf req0,
    URL_Parse (BaseURL c) urlStr = Ok u
    ∧ http_NewRequest method (URL_String u) buf = Ok req0
    ∧ (if is_bodyless method then buf = None
       else ∃ b, buf = Some b
                 ∧ match body with
                   | Some x => json_Encode x = Ok b
                   | None => b = ""
                   end)
    ∧ req = set_ReqHeader
              (apply_headers c
                 (if is_bodyless method then ∅
                  else Header_Set "Content-Type" mediaType ∅)) req0.
Proof.
  unfold NewRequest. intros H.
  destruct (URL_Parse (BaseURL c) urlStr) as [u|] eqn:Hu; simpl in H; [|done].
  destruct (is_bodyless method) eqn:Hm.
  - destruct (http_NewRequest method (URL_String u) None) as [req0|] eqn:Hr;
      simpl in H; [|done].
    injection H as <-. exists u, None, req0.
    destruct (http_NewRequest_fields _ _ _ _ Hr) as [-> _]. done.
  - destruct (match body with Some b => json_Encode b | None => Ok "" end)
      as [buf|] eqn:Hb; simpl in H; [|done].
    destruct (http_NewRequest method (URL_String u) (Some buf)) as [req0|] eqn:Hr;
      simpl in H; [|done].
    injection H as <-. exists u, (Some buf), req0.
    destruct (http_NewRequest_fields _ _ _ _ Hr) as [Hh _].
    repeat split; [done| |].
    + exists buf. split; [done|]. destruct body; [done|]. by injection Hb.
    + rewrite Hh. by destruct req0.
Qed.

(** Adding the static headers leaves alone a key none of them names. *)
Lemma fold_Add_lookup_None (hs : gmap string string)
    (h : gmap string (list string)) (K : string) :
  h !! K = None →
  (∀ k, is_Some (hs !! k) → CanonicalMIMEHeaderKey k ≠ K) →
  map_fold (λ k v h, Header_Add k v h) h hs !! K = None.
Proof.
  intros Hh.
  apply (map_fold_weak_ind
           (λ r hs', (∀ k, is_Some (hs' !! k) → CanonicalMIMEHeaderKey k ≠ K)
                     → r !! K = None)); [done|].
  intros i x m r Hi IH Hk. unfold Header_Add.
  rewrite lookup_insert_ne.
  - apply IH. intros k Hsome. apply Hk.
    destruct (decide (i = k)) as [->|]; [by rewrite lookup_insert_eq|].
    by rewrite lookup_insert_ne.
  - apply Hk. by rewrite lookup_insert_eq.
Qed.

(** Adding appends: the first value of a key stays first. *)
Lemma fold_Add_lookup_first (hs : gmap string string)
    (h : gmap string (list string)) (K x : string) (l : list string) :
  h !! K = Some (x :: l) →
  ∃ l', map_fold (λ k v h, Header_Add k v h) h hs !! K = Some (x :: l').
Proof.
  intros Hh.
  apply (map_fold_weak_ind (λ r _, ∃ l', r !! K = Some (x :: l'))); [eauto|].
  intros i v m r _ [l' Hr]. unfold Header_Add.
  destruct (decide (CanonicalMIMEHeaderKey i = K)) as [->|].
  - rewrite lookup_insert_eq, Hr. simpl. eauto.
  - rewrite lookup_insert_ne by done. eauto.
Qed.

Lemma apply_headers_lookup (c : Client) (h : gmap string (list string))
    (K : string) :
  K ≠ "Accept" → K ≠ "User-Agent" →
  apply_headers c h !! K
  = map_fold (λ k v h, Header_Add k v h) h (headers c) !! K.
Proof.
  intros H1 H2. unfold apply_headers, Header_Set.
  change (CanonicalMIMEHeaderKey "User-Agent") with "User-Agent".
  change (CanonicalMIMEHeaderKey "Accept") with "Accept".
  by rewrite !lookup_insert_ne.
Qed.

Lemma Bearer_without_space (token : string) :
  "Bearer" +:+ token ≠ "Bearer " +:+ token.
Proof.
  simpl. intros [= Heq]. induction token as [|a t IH]; [done|].
  injection Heq as -> Ht. by apply IH.
Qed.

(** C9 (the code departs from the claim).  Every request built by the
    client of [NewFromToken t] carries exactly one Authorization value, and
    it is the word Bearer followed at once by [t]: the space the claim
    puts between them is missing, so the value differs from
    "Bearer <token>". *)
Theorem NewFromToken_authorization_header (token : string) (c : Client)
    (method urlStr : string) (body : option Value) (req : Request) :
  NewFromToken token = Some c →
  NewRequest c method urlStr body = Ok req →
  ReqHeader req !! "Authorization" = Some ["Bearer" +:+ token]
  ∧ "Bearer" +:+ token ≠ "Bearer " +:+ token.
Proof.
  rewrite NewFromToken_client. intros [= <-] Hreq. split.
  - destruct (NewRequest_inv _ _ _ _ _ Hreq) as (u & buf & req0 & _ & _ & _ & ->).
    destruct req0; simpl. rewrite apply_headers_lookup by done. simpl.
    rewrite map_fold_singleton. unfold Header_Add.
    change (CanonicalMIMEHeaderKey "Authorization") with "Authorization".
    rewrite lookup_insert_eq. by destruct (is_bodyless method).
  - apply Bearer_without_space.
Qed.

(** C4 (amended).  A request built by [NewRequest] for GET, HEAD or OPTIONS
    carries no body, whatever body value is given, and no Content-Type
    header unless one of the client's static headers names that key; for
    any other method the first Content-Type value is application/json and
    the body is the JSON encoding of a non-nil body value, or empty for a
    nil one. *)
Theorem NewRequest_body_handling (c : Client) (method urlStr : string)
    (body : option Value) (req : Request) :
  NewRequest c method urlStr body = Ok req →
  if is_bodyless method
  then ReqBody req = None
       ∧ ((∀ k, is_Some (headers c !! k) →
                CanonicalMIMEHeaderKey k ≠ "Content-Type") →
          ReqHeader req !! "Content-Type" = None)
  else Header_Get "Content-Type" (ReqHeader req) = mediaType
       ∧ match body with
         | Some x => ∃ b, json_Encode x = Ok b ∧ ReqBody req = Some b
         | None => ReqBody req = Some ""
         end.
Proof.
  intros Hreq.
  destruct (NewRequest_inv _ _ _ _ _ Hreq)
    as (u & buf & req0 & _ & Hnew & Hbuf & ->).
  destruct (http_NewRequest_fields _ _ _ _ Hnew) as [_ Hbody].
  destruct (is_bodyless method).
  - subst buf. destruct req0; simpl in *. split; [done|]. intros Hstatic.
    rewrite apply_headers_lookup by done.
    by apply fold_Add_lookup_None.
  - destruct Hbuf as (b & -> & Hb). destruct req0; simpl in *. split.
    + unfold Header_Get, Header_Values.
      change (CanonicalMIMEHeaderKey "Content-Type") with "Content-Type".
      rewrite apply_headers_lookup by done.
      destruct (fold_Add_lookup_first (headers c)
                  (Header_Set "Content-Type" mediaType ∅)
                  "Content-Type" mediaType []) as [l' ->]; [|done].
      unfold Header_Set.
      change (CanonicalMIMEHeaderKey "Content-Type") with "Content-Type".
      by rewrite lookup_insert_eq.
    + destruct body; [by exists b|by subst b].
Qed.

(** ** Query options *)

Lemma merge_values_union (origValues newValues : gmap string (list string)) :
  merge_values origValues newValues = newValues ∪ origValues.
Proof. apply insert_fold_union. Qed.

(** C6.  For a URL string that parses and an options value that query
    encoding turns into key/value pairs, [addOptions] returns, without
    error, the print of a URL that differs from the original in its query
    only; parsed back, that URL has for each key of the options value
    exactly the values of the options value, and for every other key the
    values the original URL had for it.  The libraries are taken to print
    and parse that URL back to itself and to decode its query to the map
    it was encoded from. *)
Theorem addOptions_merges (s : string) (opt : optArg Options) (origURL : URL)
    (newValues : gmap string (list string)) :
  let merged := newValues ∪ URL_Query origURL in
  let printed := mkURL (Scheme origURL) (Host origURL) (Path origURL)
                       (Values_Encode merged) (Fragment origURL) in
  is_nil_pointer opt = false →
  url_Parse s = Ok origURL →
  query_Values opt = Ok newValues →
  url_Parse (URL_String printed) = Ok printed →
  URL_Query printed = merged →
  ∃ u : URL,
    addOptions s opt = (URL_String u, None)
    ∧ url_Parse (addOptions s opt).1 = Ok u
    ∧ Scheme u = Scheme origURL ∧ Host u = Host origURL
    ∧ Path u = Path origURL ∧ Fragment u = Fragment origURL
    ∧ (∀ k vs, newValues !! k = Some vs → URL_Query u !! k = Some vs)
    ∧ (∀ k, newValues !! k = None →
            URL_Query u !! k = URL_Query origURL !! k).
Proof.
  intros merged printed Hnil Hparse Hvalues Hback Hquery.
  assert (addOptions s opt = (URL_String printed, None)) as Hrun.
  { unfold addOptions. rewrite Hnil, Hparse, Hvalues.
    by rewrite merge_values_union. }
  exists printed. rewrite Hrun, Hquery. split; [done|].
  split; [exact Hback|]. do 4 (split; [done|]). split.
  - intros k vs Hk. by apply lookup_union_Some_l.
  - intros k Hk. by apply lookup_union_r.
Qed.

(** C7.  With a nil pointer for options, [addOptions] returns the URL
    string it was given, and no error; so resolving a relative path
    against a base URL and merging nil options into the result gives the
    string that resolving alone gives. *)
Theorem addOptions_nil_pointer (s : string) (base : URL) (path : string) :
  addOptions s (OptPointer None) = (s, None)
  ∧ ((λ u, (addOptions (URL_String u) (OptPointer None)).1)
       <$> URL_Parse base path)
    = (URL_String <$> URL_Parse base path).
Proof.
  split; [done|]. by destruct (URL_Parse base path).
Qed.

End RequestProperties.

Section ResponseProperties.
Context {Value Options : Type} `{!GoLib Value Options}.

(** ** [CheckResponse] *)

Lemma in_range_spec (c : Z) :
  (200 <=? c) && (c <=? 299) = true ↔ 200 ≤ c ≤ 299.
Proof. rewrite andb_true_iff, !Z.leb_le. done. Qed.

Lemma CheckResponse_success (r : Response) :
  200 ≤ StatusCode r ≤ 299 → CheckResponse r = (r, false, None).
Proof.
  intros Hok%in_range_spec. unfold CheckResponse. by rewrite Hok.
Qed.

(** Outside the 200 range the error is an [ErrorResponse]. *)
Lemma CheckResponse_failure (r : Response) :
  ¬ (200 ≤ StatusCode r ≤ 299) →
  ∃ r1 body_nil e, CheckResponse r = (r1, body_nil, Some (ApiError e)).
Proof.
  intros Hout. unfold CheckResponse.
  destruct ((200 <=? StatusCode r) && (StatusCode r <=? 299)) eqn:Hc.
  - by apply in_range_spec in Hc.
  - simpl. repeat case_match; by eexists _, _, (mkErrorResponse _ _ _).
Qed.

(** Outside the 200 range the body is read to its end, and nothing else
    is done to it. *)
Lemma CheckResponse_reads_body (r : Response) :
  ¬ (200 ≤ StatusCode r ≤ 299) →
  RespBody (CheckResponse r).1.1 = set_unread "" (RespBody r).
Proof.
  intros Hout. unfold CheckResponse.
  destruct ((200 <=? StatusCode r) && (StatusCode r <=? 299)) eqn:Hc.
  - by apply in_range_spec in Hc.
  - simpl. by repeat case_match.
Qed.

(** When the body is read and decodes without error, message and code are
    those decoded; when decoding fails the message is the raw body. *)
Lemma CheckResponse_decoded (r : Response) :
  ¬ (200 ≤ StatusCode r ≤ 299) →
  readErr (RespBody r) = None →
  nonempty (unread (RespBody r)) = true →
  let data := unread (RespBody r) in
  let u := json_Unmarshal data (set_RespBody (set_unread "" (RespBody r)) r) in
  ∃ r1 e, CheckResponse r = (r1, um_body_nil u, Some (ApiError e))
    ∧ Code e = um_Code u
    ∧ Message e = (if um_err u is Some _ then data else um_Message u).
Proof.
  intros Hout Hread Hdata. cbv zeta. unfold CheckResponse.
  destruct ((200 <=? StatusCode r) && (StatusCode r <=? 299)) eqn:Hc.
  - by apply in_range_spec in Hc.
  - simpl. rewrite Hread, Hdata. by eexists _, (mkErrorResponse _ _ _).
Qed.

End ResponseProperties.

(** The claim's example: a 404 whose body is
    [{"error":"not found","code":404}]. *)
Example CheckResponse_not_found :
  ∃ r e, CheckResponse (response_of 404 body_not_found)
         = (r, false, Some (ApiError e))
    ∧ Message e = "not found" ∧ Code e = 404
    ∧ ErrorResponse_Error e
      = Some "GET https://api.cloudcraft.co/blueprint/xyz: 404 not found".
Proof. do 2 eexists. split; [vm_compute; reflexivity|]. by vm_compute. Qed.

(** A 500 whose body is not JSON. *)
Example CheckResponse_internal_error :
  ∃ r e, CheckResponse (response_of 500 "internal error")
         = (r, false, Some (ApiError e))
    ∧ Message e = "internal error" ∧ Code e = 0.
Proof. do 2 eexists. split; [vm_compute; reflexivity|]. by vm_compute. Qed.

(** A 400 whose body is [{"Response":{"StatusCode":200}}]: the decoder
    writes through the pointer of the error, and the response the caller
    holds reads 200 afterwards. *)
Example CheckResponse_rewrites_status :
  ∃ r e, CheckResponse (response_of 400 body_response_status)
         = (r, false, Some (ApiError e))
    ∧ StatusCode r = 200 ∧ ErrResponse e = TheResponse r.
Proof. do 2 eexists. split; [vm_compute; reflexivity|]. by vm_compute. Qed.

(** C3 (the code departs from the claim).  A 400 whose body is
    [{"code":7,"error":5}], valid JSON that is not of the shape
    [{error: string, code: integer}]: decoding fails after the code is
    stored, and [CheckResponse] replaces the message only, so the error
    has the raw body as message and the code 7, not zero.  And a 400 whose
    body is [{"Response":null,"error":"x"}]: the decoder, handed the whole
    error, sets its untagged [Response] field to nil, so the error has no
    string form ([Error] dereferences the nil pointer). *)
Theorem CheckResponse_keeps_partial_decoding :
  (∃ r e, CheckResponse (response_of 400 body_mistyped)
          = (r, false, Some (ApiError e))
     ∧ Message e = body_mistyped ∧ Code e = 7)
  ∧ (∃ r e, CheckResponse (response_of 400 body_response_null)
            = (r, false, Some (ApiError e))
       ∧ Message e = "x" ∧ ErrResponse e = NoResponse
       ∧ ErrorResponse_Error e = None).
Proof.
  split; do 2 eexists; (split; [vm_compute; reflexivity|]); by vm_compute.
Qed.

(** An event that differs from every entry of a log is not in it. *)
Ltac not_logged :=
  let Hin := fresh "Hin" in
  intros Hin;
  repeat match type of Hin with
         | _ ∈ _ ++ _ => apply elem_of_app in Hin as [Hin|Hin]
         | _ ∈ _ :: _ => apply elem_of_cons in Hin as [Hin|Hin]; [done|]
         | _ ∈ replicate _ _ => apply elem_of_replicate in Hin as [? _]; done
         | _ ∈ [] => by apply elem_of_nil in Hin
         end.

(** An event that a log shows, behind the exchanges. *)
Ltac logged :=
  repeat first [ apply list_elem_of_here
               | apply list_elem_of_further
               | apply elem_of_app; right ].

Section DoProperties.
Context {Value Options : Type} `{!GoLib Value Options}.

(** ** The retry loop *)

Lemma run_bind {A B} (m : M A) (k : A → M B) (w : World) :
  run (m ≫= k) w
  = match run m w with
    | Returns a w' => run (k a) w'
    | Panics msg w' => Panics msg w'
    | Running => Running
    end.
Proof. done. Qed.

Lemma after_sends_succ (k : nat) (req : Request) (w : World) :
  after_sends k req {| sent := S (sent w); log := log w ++ [EvSend req] |}
  = after_sends (S k) req w.
Proof.
  unfold after_sends. simpl. f_equal; [lia|].
  by rewrite <- (assoc_L (++)).
Qed.

Lemma settles_next (t : Transport) (req : Request) (start n : nat)
    (r : Response) :
  settles t req start (S n) r → settles t req (S start) n r.
Proof.
  intros (H202 & Hlast & Hne). repeat split; [| |done].
  - intros i Hi. replace (S start + i)%nat with (start + S i)%nat by lia.
    apply H202. lia.
  - by replace (S start + n)%nat with (start + S n)%nat by lia.
Qed.

(** While the exchanges give 202 the loop goes on; it leaves with the
    first response of another status, after exactly [n + 1] exchanges. *)
Lemma exchange_loop_settles (c : Client) (req : Request) (r : Response)
    (n : nat) :
  ∀ (fuel : nat) (w : World),
    settles (http_client c) req (sent w) n r →
    (n ≤ fuel)%nat →
    run ('(resp, err) ← DoRequestWithClient (http_client c) req;
         retry_while_202 fuel c req resp err) w
    = Returns (r, None) (after_sends (S n) req w).
Proof.
  induction n as [|n IH]; intros fuel w Hs Hfuel; rewrite run_bind; simpl.
  - destruct Hs as (_ & Hlast & Hne). rewrite Nat.add_0_r in Hlast.
    rewrite Hlast. apply Z.eqb_neq in Hne.
    destruct fuel; simpl; rewrite Hne; simpl; unfold after_sends; simpl;
      do 2 f_equal; lia.
  - pose proof Hs as (H202 & _ & _).
    destruct (H202 0%nat) as (r0 & e0 & Hr0 & Hst); [lia|].
    rewrite Nat.add_0_r in Hr0. rewrite Hr0.
    destruct fuel as [|fuel]; [lia|]. simpl.
    apply Z.eqb_eq in Hst. rewrite Hst.
    rewrite (IH fuel); [by rewrite after_sends_succ| |lia].
    by apply settles_next.
Qed.

Lemma Do_settles (fuel : nat) (c : Client) (req : Request) (v : dest Value)
    (w : World) (n : nat) (r : Response) :
  settles (http_client c) req (sent w) n r →
  (n ≤ fuel)%nat →
  run (Do fuel c req v) w
  = run (complete c req r None v) (after_sends (S n) req w).
Proof.
  intros Hs Hfuel.
  pose proof (exchange_loop_settles c req r n fuel w Hs Hfuel) as Hloop.
  unfold Do. rewrite run_bind in Hloop. rewrite run_bind.
  destruct (run (DoRequestWithClient (http_client c) req) w)
    as [[resp err] w1| |]; [|done..].
  rewrite run_bind. by rewrite Hloop.
Qed.

(** X16.  A server that never leaves 202 keeps [Do] in its loop, whatever the
    fuel. *)
Lemma Do_never_settles (fuel : nat) (c : Client) (req : Request)
    (v : dest Value) (w : World) :
  (∀ i, ∃ ri ei, http_client c i req = (Some ri, ei) ∧ StatusCode ri = 202) →
  run (Do fuel c req v) w = Running.
Proof.
  intros H202. unfold Do. rewrite run_bind. simpl.
  destruct (H202 (sent w)) as (r0 & e0 & -> & Hst0).
  rewrite run_bind.
  assert (∀ fuel w r e, StatusCode r = 202 →
            run (retry_while_202 fuel c req (Some r) e) w = Running) as Hloop.
  { clear -H202. induction fuel as [|fuel IH]; intros w r e Hst;
      apply Z.eqb_eq in Hst; simpl; rewrite Hst; [done|].
    rewrite run_bind. simpl.
    destruct (H202 (sent w)) as (ri & ei & -> & Hsti). by apply IH. }
  by rewrite Hloop.
Qed.

(** ** After the loop *)

Lemma same_response_refl (r : Response) : same_response r r.
Proof. by unfold same_response. Qed.

Lemma same_response_body (r r' : Response) (b : Body) :
  same_response r r' → same_response r (set_RespBody b r').
Proof. by unfold same_response. Qed.

Lemma same_response_released (r r' : Response) :
  same_response r r' → same_response r (released r').
Proof. apply same_response_body. Qed.

(** What [Do] does once a response has come without error: the callback,
    if one is registered; then, for a status in [200,299], the copy or
    the decoding the destination asks for, and the close; for any other
    status the error of [CheckResponse], and the close, which panics when
    the decoder of the error body has set the body of the response to
    nil. *)
Lemma complete_run (c : Client) (req : Request) (r : Response)
    (v : dest Value) (w : World) :
  let called := if onRequestCompleted c then [EvCompleted req r] else [] in
  let world evs := {| sent := sent w; log := log w ++ called ++ evs |} in
  run (complete c req r None v) w
  = if (200 <=? StatusCode r) && (StatusCode r <=? 299) then
      match v with
      | DestNil => Returns (Some (released r), None, DestNil) (world [EvClose])
      | DestWriter wr =>
          let '(wr', body, cerr) := io_Copy wr (RespBody r) in
          Returns (if cerr is None
                   then Some (released (set_RespBody body r)) else None,
                   LibError <$> cerr, DestWriter wr')
                  (world [EvCopy; EvClose])
      | DestValue x =>
          let body := RespBody r in
          let '(k, x', derr) := json_Decode (unread body) (readErr body) x in
          let r' := set_RespBody
                      (set_unread (drop_bytes k (unread body)) body) r in
          Returns (if derr is None then Some (released r') else None,
                   LibError <$> derr, DestValue x')
                  (world [EvDecode; EvClose])
      end
    else
      let '(r1, body_nil, err) := CheckResponse r in
      if body_nil then Panics nil_dereference (world [])
      else Returns (Some (released r1), seen_through (released r1) err, v)
                   (world [EvClose]).
Proof.
  cbv zeta. unfold complete, handle, run_deferred, drain_and_close.
  destruct ((200 <=? StatusCode r) && (StatusCode r <=? 299)) eqn:Hc.
  - rewrite (CheckResponse_success r) by (by apply in_range_spec).
    destruct v as [|wr|x].
    + by destruct (onRequestCompleted c); simpl; rewrite <- ?(assoc_L (++)).
    + destruct (io_Copy wr (RespBody r)) as [[wr' b'] [ce|]];
        by destruct (onRequestCompleted c); simpl; rewrite <- ?(assoc_L (++)).
    + simpl.
      destruct (json_Decode (unread (RespBody r)) (readErr (RespBody r)) x)
        as [[k x'] [de|]];
        by destruct (onRequestCompleted c); simpl; rewrite <- ?(assoc_L (++)).
  - destruct (CheckResponse_failure r) as (r1 & bn & e & ->).
    { by rewrite <- in_range_spec, Hc. }
    by destruct w, bn, (onRequestCompleted c); simpl;
      rewrite <- ?(assoc_L (++)), ?app_nil_r.
Qed.


(** C2 (the code departs from the claim).  When the first exchange fails,
    giving no response and an error, [Do] does not return that error: the
    loop condition reads the status of the nil response and the call
    panics. *)
Theorem Do_transport_failure_panics (fuel : nat) (c : Client) (req : Request)
    (v : dest Value) (w : World) (e : error) :
  http_client c (sent w) req = (None, Some e) →
  run (Do fuel c req v) w = Panics nil_dereference (after_sends 1 req w).
Proof.
  intros Hfail. unfold Do. rewrite run_bind. simpl. rewrite Hfail.
  rewrite run_bind. destruct fuel; simpl; unfold after_sends; simpl;
    do 2 f_equal; lia.
Qed.

(** A failure after a 202 panics in the same way. *)
Lemma Do_retry_failure_panics (fuel : nat) (c : Client) (req : Request)
    (v : dest Value) (w : World) (r0 : Response) (e0 : option error)
    (e : error) :
  http_client c (sent w) req = (Some r0, e0) →
  StatusCode r0 = 202 →
  http_client c (S (sent w)) req = (None, Some e) →
  run (Do (S fuel) c req v) w = Panics nil_dereference (after_sends 2 req w).
Proof.
  intros H0 Hst%Z.eqb_eq Hfail. unfold Do. rewrite run_bind. simpl.
  rewrite H0. rewrite run_bind. simpl. rewrite Hst. rewrite run_bind. simpl.
  rewrite Hfail. unfold after_sends. simpl.
  destruct fuel; simpl; rewrite <- (assoc_L (++)); do 2 f_equal; lia.
Qed.

(** ** Success and the destination *)

Lemma io_Copy_whole (wr : Writer) (b : Body) :
  readErr b = None → writeErr wr = None →
  io_Copy wr b
  = ({| written := written wr +:+ unread b; writeErr := None |},
     set_unread "" b, None).
Proof.
  intros Hr Hw. unfold io_Copy. rewrite Hr, Hw.
  destruct (unread b) eqn:Hu; [|done].
  destruct wr as [wtn we], b as [u re ce cl]. simpl in *. subst.
  assert (wtn +:+ "" = wtn) as ->; [|done].
  induction wtn as [|a wtn IH]; [done|].
  change (String a (wtn +:+ "") = String a wtn). by f_equal.
Qed.

(** C5.  When the response [Do] ends on has a status in [200,299]: with an
    [io.Writer] destination the body is copied to it and no decoding takes
    place, the writer holding the whole body after what it held when reads
    and writes succeed, and a copy error being the call's error; with any
    other non-nil destination the body is JSON-decoded into it, and a
    decoding error is the call's error; with a nil destination nothing is
    copied or decoded and the call succeeds. *)
Theorem Do_success_destination (fuel : nat) (c : Client) (req : Request)
    (v : dest Value) (w : World) (n : nat) (r : Response) :
  settles (http_client c) req (sent w) n r →
  (n ≤ fuel)%nat →
  200 ≤ StatusCode r ≤ 299 →
  ∃ out evs,
    run (Do fuel c req v) w
    = Returns out {| sent := sent w + S n; log := log w ++ evs |}
    ∧ match v with
      | DestWriter wr =>
          let '(wr', body, cerr) := io_Copy wr (RespBody r) in
          (EvDecode ∉ evs)
          ∧ out = (if cerr is None
                   then Some (released (set_RespBody body r)) else None,
                   LibError <$> cerr, DestWriter wr')
          ∧ (readErr (RespBody r) = None → writeErr wr = None →
             cerr = None
             ∧ written wr' = written wr +:+ unread (RespBody r)
             ∧ unread body = "")
      | DestValue x =>
          let body := RespBody r in
          let '(k, x', derr) := json_Decode (unread body) (readErr body) x in
          let r' := set_RespBody
                      (set_unread (drop_bytes k (unread body)) body) r in
          (EvDecode ∈ evs) ∧ (EvCopy ∉ evs)
          ∧ out = (if derr is None then Some (released r') else None,
                   LibError <$> derr, DestValue x')
      | DestNil =>
          (EvDecode ∉ evs) ∧ (EvCopy ∉ evs)
          ∧ out = (Some (released r), None, DestNil)
      end.
Proof.
  intros Hs Hfuel Hok. rewrite (Do_settles fuel c req v w n r Hs Hfuel).
  unfold complete, handle, drain_and_close.
  rewrite (CheckResponse_success r Hok).
  destruct v as [|wr|x].
  - destruct (onRequestCompleted c); simpl; rewrite <- ?(assoc_L (++));
      eexists _, _; (split; [reflexivity|]); repeat split; not_logged.
  - pose proof (io_Copy_whole wr (RespBody r)) as Hwhole.
    destruct (io_Copy wr (RespBody r)) as [[wr' b'] [ce|]];
      destruct (onRequestCompleted c); simpl; rewrite <- ?(assoc_L (++));
      eexists _, _; (split; [reflexivity|]);
      (split; [not_logged|split; [done|]]);
      intros Hr Hw; specialize (Hwhole Hr Hw); by simplify_eq.
  - simpl.
    destruct (json_Decode (unread (RespBody r)) (readErr (RespBody r)) x)
      as [[k x'] [de|]];
      destruct (onRequestCompleted c); simpl; rewrite <- ?(assoc_L (++));
      eexists _, _; (split; [reflexivity|]);
      (split; [logged|split; [not_logged|done]]).
Qed.

(** The drain drops at most 2048 bytes, and only when the content length
    is unknown or within that cap; it changes nothing else of the body. *)
Lemma drain_cap (r : Response) :
  unread (drain r)
  = (if (ContentLength r =? -1) || (ContentLength r <=? 2048)
     then drop_bytes 2048 (unread (RespBody r))
     else unread (RespBody r))
  ∧ closeErr (drain r) = closeErr (RespBody r).
Proof.
  unfold drain. change maxBodySlurpSize with 2048.
  by destruct ((ContentLength r =? -1) || (ContentLength r <=? 2048)).
Qed.

(** C10 (the code departs from the claim).  When [Do] ends on a response of
    status in [200,299] with a nil destination and the close of its body
    fails, the deferred closure stores the close error in the local
    variable [err], yet the call returns the response and no error: the
    close error does not reach the caller. *)
Theorem Do_drops_close_error (fuel : nat) (c : Client) (req : Request)
    (w : World) (n : nat) (r : Response) (e : string) :
  settles (http_client c) req (sent w) n r →
  (n ≤ fuel)%nat →
  200 ≤ StatusCode r ≤ 299 →
  closeErr (RespBody r) = Some e →
  (∃ w', run (Do fuel c req DestNil) w
         = Returns (Some (released r), None, DestNil) w'
         ∧ EvClose ∈ log w')
  ∧ closed (RespBody (released r)) = true
  ∧ ∃ w', run (drain_and_close r None) w
          = Returns (released r, Some (LibError e)) w'.
Proof.
  intros Hs Hfuel Hok Hclose. split; [|split].
  - rewrite (Do_settles fuel c req DestNil w n r Hs Hfuel).
    unfold complete, handle, drain_and_close.
    rewrite (CheckResponse_success r Hok).
    destruct (onRequestCompleted c); simpl; eexists; (split; [reflexivity|]);
      simpl; apply elem_of_app; right; constructor.
  - done.
  - unfold drain_and_close. simpl. eexists.
    assert (closeErr (drain r) = Some e) as ->; [|done].
    unfold drain. by destruct (_ || _).
Qed.

(** An error already pending is what [Do] returns, whatever the drain and
    the close report, as long as the response still has a body to close. *)
Lemma Do_keeps_pending_error (fuel : nat) (c : Client) (req : Request)
    (v : dest Value) (w : World) (n : nat) (r : Response) :
  settles (http_client c) req (sent w) n r →
  (n ≤ fuel)%nat →
  ¬ (200 ≤ StatusCode r ≤ 299) →
  (CheckResponse r).1.2 = false →
  ∃ e e0 w', run (Do fuel c req v) w
             = Returns (Some (released (CheckResponse r).1.1),
                        Some (ApiError e), v) w'
             ∧ (CheckResponse r).2 = Some (ApiError e0)
             ∧ Message e = Message e0 ∧ Code e = Code e0.
Proof.
  intros Hs Hfuel Hout Hbody. rewrite (Do_settles fuel c req v w n r Hs Hfuel).
  rewrite complete_run. cbv zeta.
  destruct ((200 <=? StatusCode r) && (StatusCode r <=? 299)) eqn:Hc.
  { by apply in_range_spec in Hc. }
  destruct (CheckResponse_failure r Hout) as (r1 & bn & e & Hcr).
  rewrite Hcr in *. simpl in Hbody. subst bn. simpl.
  destruct (ErrResponse e); by eexists _, e, _.
Qed.

End DoProperties.

Section ServiceProperties.
Context {Value Options : Type} `{!GoLib Value Options}.

(** ** Argument checks of the resource services *)

(** An empty identifier is refused with an argument error before anything
    else happens: no exchange is made and nothing is logged. *)
Lemma empty_identifier_refused (fuel : nat) (c : Client) (w : World)
    (target : Value) (body : option Value)
    (er : option (BlueprintExportRequest Options))
    (sr : option (AwsAccountSnapshotRequest Options)) :
  run (Blueprints_Get target fuel c "") w
  = Returns (None, None, Some (ArgError "blueprintId" "cannot be empty")) w
  ∧ run (Blueprints_Update target fuel c "" body) w
    = Returns (None, None, Some (ArgError "blueprintId" "cannot be empty")) w
  ∧ run (Blueprints_Delete fuel c "") w
    = Returns (None, Some (ArgError "blueprintId" "cannot be empty")) w
  ∧ run (Blueprints_Export target fuel c "" er) w
    = Returns (None, None, Some (ArgError "blueprintId" "cannot be empty")) w
  ∧ run (AwsAccounts_Get target fuel c "") w
    = Returns (None, None, Some (ArgError "awsAccountID" "cannot be empty")) w
  ∧ run (AwsAccounts_Update target fuel c "" body) w
    = Returns (None, None, Some (ArgError "awsAccountID" "cannot be empty")) w
  ∧ run (AwsAccounts_Delete fuel c "") w
    = Returns (None, Some (ArgError "awsAccountID" "cannot be empty")) w
  ∧ run (AwsAccounts_Snapshot target fuel c "" sr) w
    = Returns (None, None, Some (ArgError "awsAccountID" "cannot be empty")) w
  ∧ run (Users_Get target fuel c "") w
    = Returns (None, None, Some (ArgError "userID" "cannot be empty")) w.
Proof. repeat split. Qed.

(** A nil request body is refused by the operations that check it. *)
Lemma nil_body_refused (fuel : nat) (c : Client) (w : World)
    (target : Value) (id : string) :
  id ≠ "" →
  run (Blueprints_Create target fuel c None) w
  = Returns (None, None, Some (ArgError "createRequest" "cannot be nil")) w
  ∧ run (Blueprints_Update target fuel c id None) w
    = Returns (None, None, Some (ArgError "updateRequest" "cannot be nil")) w
  ∧ run (AwsAccounts_Create target fuel c None) w
    = Returns (None, None, Some (ArgError "createRequest" "cannot be nil")) w
  ∧ run (AwsAccounts_Update target fuel c id None) w
    = Returns (None, None, Some (ArgError "updateRequest" "cannot be nil")) w.
Proof. intros Hid. by destruct id. Qed.

(** C8 (the code departs from the claim).  With an identifier that is not
    empty and a nil request, [Export] of a blueprint and [Snapshot] of an
    account do not return an argument error: they read a field of the nil
    request and panic, before any exchange. *)
Theorem export_nil_request_panics (fuel : nat) (c : Client) (w : World)
    (target : Value) (id : string) :
  id ≠ "" →
  run (Blueprints_Export target fuel c id None) w = Panics nil_dereference w
  ∧ run (AwsAccounts_Snapshot target fuel c id None) w
    = Panics nil_dereference w.
Proof. intros Hid. by destruct id. Qed.

End ServiceProperties.

(** * The properties at sample inputs *)

Example NewClient_BaseURL :
  URL_String (BaseURL (NewClient None)) = defaultBaseURL.
Proof. reflexivity. Qed.

(** The client of [New] with a static Content-Type header. *)
Example New_with_content_type :
  New None [SetRequestHeaders {[ "Content-Type" := "text/plain" ]}]
  = Ok client_with_content_type.
Proof.
  unfold New. simpl. unfold SetRequestHeaders.
  rewrite insert_fold_union. simpl. by rewrite (right_id_L ∅ (∪)).
Qed.

(** A GET request built by a client whose static headers name a content
    type carries that Content-Type header. *)
Lemma NewRequest_get_static_content_type :
  ¬ body_handling_as_stated client_with_content_type MethodGet "blueprint"
      (Some "{}").
Proof.
  intros Hclaim.
  destruct (NewRequest client_with_content_type MethodGet "blueprint"
              (Some "{}")) as [req|e] eqn:Hreq;
    [|vm_compute in Hreq; discriminate].
  specialize (Hclaim req Hreq).
  change (is_bodyless MethodGet) with true in Hclaim.
  destruct Hclaim as [_ Hct].
  vm_compute in Hreq. injection Hreq as <-.
  vm_compute in Hct. discriminate.
Qed.


Lemma Do_transport_failure_panics_witness :
  http_client (NewClient None) (sent World0) request_xyz
  = (None, Some (LibError "dial tcp: network is unreachable"))
  ∧ run (Do 0 (NewClient None) request_xyz DestNil) World0
    = Panics nil_dereference (after_sends 1 request_xyz World0).
Proof.
  split; [reflexivity|].
  apply (Do_transport_failure_panics 0 (NewClient None) request_xyz DestNil
           World0 (LibError "dial tcp: network is unreachable")).
  reflexivity.
Defined.

Lemma NewRequest_body_handling_witness :
  ∃ req,
    NewRequest (NewClient None) MethodGet "blueprint" (Some "{}") = Ok req
    ∧ ReqBody req = None
    ∧ ReqHeader req !! "Content-Type" = None.
Proof.
  destruct (NewRequest (NewClient None) MethodGet "blueprint" (Some "{}"))
    as [req|e] eqn:Hreq; [|vm_compute in Hreq; discriminate].
  exists req. split; [reflexivity|].
  pose proof (NewRequest_body_handling (NewClient None) MethodGet "blueprint"
                (Some "{}") req Hreq) as Hspec.
  change (is_bodyless MethodGet) with true in Hspec.
  destruct Hspec as [Hbody Hct]. split; [exact Hbody|].
  apply Hct. intros k [v Hk]. simpl in Hk. by rewrite lookup_empty in Hk.
Defined.

Lemma Do_success_destination_witness :
  settles (answers (response_of 200 "{}")) request_xyz 0 0
    (response_of 200 "{}")
  ∧ (0 ≤ 0)%nat
  ∧ 200 ≤ StatusCode (response_of 200 "{}") ≤ 299
  ∧ ∃ out w',
      run (Do 0 (NewClient (Some (answers (response_of 200 "{}"))))
             request_xyz (DestWriter (mkWriter "" None))) World0
      = Returns out w'
      ∧ out.2 = DestWriter (mkWriter "{}" None).
Proof.
  assert (settles (answers (response_of 200 "{}")) request_xyz 0 0
            (response_of 200 "{}")) as Hs.
  { split; [intros i Hi; lia|]. split; [reflexivity|discriminate]. }
  assert (200 ≤ StatusCode (response_of 200 "{}") ≤ 299) as Hok.
  { simpl. lia. }
  split; [exact Hs|]. split; [lia|]. split; [exact Hok|].
  destruct (Do_success_destination 0
              (NewClient (Some (answers (response_of 200 "{}"))))
              request_xyz (DestWriter (mkWriter "" None)) World0 0
              (response_of 200 "{}") Hs (Nat.le_refl 0) Hok)
    as (out & evs & Hrun & Hcase).
  exists out. eexists. split; [exact Hrun|].
  vm_compute in Hcase. destruct Hcase as (_ & -> & _). reflexivity.
Defined.

Lemma addOptions_merges_witness :
  let s := "blueprint/b1/png?width=1&grid=true" in
  let opt := OptPointer (Some [("width", "2"); ("height", "3")]) in
  let origURL := mkURL "" "" "blueprint/b1/png" "width=1&grid=true" "" in
  let newValues : gmap string (list string) :=
    <["width" := ["2"]]> (<["height" := ["3"]]> ∅) in
  ∃ u : URL,
    addOptions s opt = (URL_String u, None)
    ∧ url_Parse (addOptions s opt).1 = Ok u
    ∧ Scheme u = Scheme origURL ∧ Host u = Host origURL
    ∧ Path u = Path origURL ∧ Fragment u = Fragment origURL
    ∧ (∀ k vs, newValues !! k = Some vs → URL_Query u !! k = Some vs)
    ∧ (∀ k, newValues !! k = None →
            URL_Query u !! k = URL_Query origURL !! k).
Proof.
  intros s opt origURL newValues.
  apply (addOptions_merges s opt origURL newValues); vm_compute; reflexivity.
Defined.

(** The merge of the witness above, read off the URL returned. *)
Example addOptions_merges_sample :
  let out := (addOptions "blueprint/b1/png?width=1&grid=true"
                (OptPointer (Some [("width", "2"); ("height", "3")]))).1 in
  out = "blueprint/b1/png?grid=true&height=3&width=2"
  ∧ (URL_Query <$> url_Parse out)
    = Ok (<["width" := ["2"]]> (<["height" := ["3"]]>
           (<["grid" := ["true"]]> ∅))).
Proof. split; vm_compute; reflexivity. Qed.

Lemma export_nil_request_panics_witness :
  "bp1" ≠ ""
  ∧ run (Blueprints_Export "" 0 (NewClient None) "bp1" None) World0
    = Panics nil_dereference World0
  ∧ run (AwsAccounts_Snapshot "" 0 (NewClient None) "bp1" None) World0
    = Panics nil_dereference World0.
Proof.
  assert ("bp1" ≠ "") as Hid by discriminate.
  split; [exact Hid|].
  exact (export_nil_request_panics 0 (NewClient None) World0 "" "bp1" Hid).
Defined.

Lemma NewFromToken_authorization_header_witness :
  ∃ c req,
    NewFromToken "abc" = Some c
    ∧ NewRequest c MethodGet "blueprint" None = Ok req
    ∧ ReqHeader req !! "Authorization" = Some ["Bearerabc"]
    ∧ "Bearerabc" ≠ "Bearer abc".
Proof.
  destruct (NewFromToken "abc") as [c|] eqn:Hc;
    [|vm_compute in Hc; discriminate].
  destruct (NewRequest c MethodGet "blueprint" None) as [req|e] eqn:Hreq;
    [|rewrite NewFromToken_client in Hc; injection Hc as <-;
      vm_compute in Hreq; discriminate].
  exists c, req. split; [reflexivity|]. split; [exact Hreq|].
  exact (NewFromToken_authorization_header "abc" c MethodGet "blueprint" None
           req Hc Hreq).
Defined.

Lemma Do_drops_close_error_witness :
  let r := response_close_fails 200 "{}" in
  settles (answers r) request_xyz 0 0 r
  ∧ (0 ≤ 0)%nat
  ∧ 200 ≤ StatusCode r ≤ 299
  ∧ closeErr (RespBody r) = Some "close: connection reset"
  ∧ ∃ w', run (Do 0 (NewClient (Some (answers r))) request_xyz DestNil) World0
          = Returns (Some (released r), None, DestNil) w'.
Proof.
  intros r.
  assert (settles (answers r) request_xyz 0 0 r) as Hs.
  { split; [intros i Hi; lia|]. split; [reflexivity|discriminate]. }
  assert (200 ≤ StatusCode r ≤ 299) as Hok.
  { simpl. lia. }
  split; [exact Hs|]. split; [lia|]. split; [exact Hok|].
  split; [reflexivity|].
  destruct (Do_drops_close_error 0 (NewClient (Some (answers r))) request_xyz
              World0 0 r "close: connection reset" Hs (Nat.le_refl 0) Hok
              eq_refl) as [(w' & Hrun & _) _].
  by exists w'.
Defined.

(** * Further properties of the code *)

Section MoreRequestProperties.
Context {Value Options : Type} `{!GoLib Value Options}.

(** ** Client options *)

Lemma apply_opts_app (opts1 opts2 : list ClientOpt) (c : Client) :
  apply_opts (opts1 ++ opts2) c = (apply_opts opts1 c ≫= apply_opts opts2).
Proof.
  revert c. induction opts1 as [|o opts1 IH]; intros c; simpl; [done|].
  destruct (o c) as [c'|e]; simpl; [apply IH|done].
Qed.

(** X1.  [New] stops at the first option that fails: it returns that option's
    error, whatever options come after it. *)
Theorem New_first_error (t : option Transport) (opts1 opts2 : list ClientOpt)
    (o : ClientOpt) (c1 : Client) (e : error) :
  New t opts1 = Ok c1 →
  o c1 = Err e →
  New t (opts1 ++ o :: opts2) = Err e.
Proof.
  unfold New. intros H1 Ho. rewrite apply_opts_app, H1. simpl. by rewrite Ho.
Qed.

(** X2.  Header maps set by two [SetRequestHeaders] options are merged: on a
    key both name the later option wins, and a key only the earlier names
    is kept; nothing else of the client changes. *)
Theorem New_SetRequestHeaders_twice (t : option Transport)
    (h1 h2 : gmap string string) :
  ∃ c, New t [SetRequestHeaders h1; SetRequestHeaders h2] = Ok c
    ∧ (∀ k, headers c !! k
            = match h2 !! k with
              | Some v => Some v
              | None => h1 !! k
              end)
    ∧ BaseURL c = BaseURL (NewClient t)
    ∧ UserAgent c = UserAgent (NewClient t)
    ∧ http_client c = http_client (NewClient t).
Proof.
  eexists. split; [reflexivity|]. simpl. split; [|done].
  intros k. rewrite !insert_fold_union.
  destruct (h2 !! k) as [v|] eqn:Hk.
  - by apply lookup_union_Some_l.
  - rewrite lookup_union_r by done.
    by rewrite (right_id_L ∅ (∪)).
Qed.

(** ** Headers of every request *)

Lemma apply_headers_fixed (c : Client) (h : gmap string (list string)) :
  apply_headers c h !! "Accept" = Some [mediaType]
  ∧ apply_headers c h !! "User-Agent" = Some [UserAgent c].
Proof.
  unfold apply_headers, Header_Set.
  change (CanonicalMIMEHeaderKey "User-Agent") with "User-Agent".
  change (CanonicalMIMEHeaderKey "Accept") with "Accept".
  split.
  - rewrite lookup_insert_ne by done. apply lookup_insert_eq.
  - apply lookup_insert_eq.
Qed.

(** X3.  Every request [NewRequest] builds has exactly one Accept value,
    application/json, and exactly one User-Agent value, the client's:
    static headers of those names are overwritten. *)
Theorem NewRequest_accept_user_agent (c : Client) (method urlStr : string)
    (body : option Value) (req : Request) :
  NewRequest c method urlStr body = Ok req →
  ReqHeader req !! "Accept" = Some [mediaType]
  ∧ ReqHeader req !! "User-Agent" = Some [UserAgent c].
Proof.
  intros Hreq.
  destruct (NewRequest_inv _ _ _ _ _ Hreq) as (u & buf & req0 & _ & _ & _ & ->).
  destruct req0; simpl. apply apply_headers_fixed.
Qed.

(** X4.  A user agent given by [SetUserAgent] goes in front of the library's
    own, and that is the User-Agent of the requests the client builds. *)
Theorem SetUserAgent_header (t : option Transport) (ua : string) (c : Client)
    (method urlStr : string) (body : option Value) (req : Request) :
  New t [SetUserAgent ua] = Ok c →
  NewRequest c method urlStr body = Ok req →
  ReqHeader req !! "User-Agent" = Some [ua +:+ " cloudcraft-go/1.0.0"].
Proof.
  intros [= <-] Hreq.
  destruct (NewRequest_inv _ _ _ _ _ Hreq) as (u & buf & req0 & _ & _ & _ & ->).
  destruct req0; simpl.
  by rewrite (proj2 (apply_headers_fixed _ _)).
Qed.

(** Adding the static headers puts each value under its canonical key. *)
Lemma fold_Add_contains (hs : gmap string string)
    (h : gmap string (list string)) (k v : string) :
  hs !! k = Some v →
  v ∈ default [] (map_fold (λ k v h, Header_Add k v h) h hs
                  !! CanonicalMIMEHeaderKey k).
Proof.
  revert k v.
  apply (map_fold_weak_ind
           (λ r hs', ∀ k v, hs' !! k = Some v →
                            v ∈ default [] (r !! CanonicalMIMEHeaderKey k))).
  - intros k v Hk. by rewrite lookup_empty in Hk.
  - intros i x m r Hi IH k v Hk. unfold Header_Add.
    destruct (decide (i = k)) as [->|Hne].
    + rewrite lookup_insert_eq in Hk. injection Hk as ->.
      rewrite lookup_insert_eq. simpl. apply elem_of_app. right.
      apply list_elem_of_here.
    + rewrite lookup_insert_ne in Hk by done. specialize (IH k v Hk).
      destruct (decide (CanonicalMIMEHeaderKey i = CanonicalMIMEHeaderKey k))
        as [Heq|Hneq].
      * rewrite Heq, lookup_insert_eq. simpl. apply elem_of_app. by left.
      * by rewrite lookup_insert_ne.
Qed.

(** X5.  Every static header of the client is on every request it builds: its
    value is among the values of its canonical key, unless that key is
    Accept or User-Agent. *)
Theorem NewRequest_static_headers (c : Client) (method urlStr : string)
    (body : option Value) (req : Request) (k v : string) :
  NewRequest c method urlStr body = Ok req →
  headers c !! k = Some v →
  CanonicalMIMEHeaderKey k ≠ "Accept" →
  CanonicalMIMEHeaderKey k ≠ "User-Agent" →
  v ∈ Header_Values k (ReqHeader req).
Proof.
  intros Hreq Hk Ha Hu.
  destruct (NewRequest_inv _ _ _ _ _ Hreq) as (u & buf & req0 & _ & _ & _ & ->).
  destruct req0; simpl. unfold Header_Values.
  rewrite apply_headers_lookup by done. by apply fold_Add_contains.
Qed.

(** ** Methods, bodies and failures *)

Lemma http_NewRequest_inv (method url : string) (body : option string)
    (req : Request) :
  http_NewRequest method url body = Ok req →
  Method req = (if nonempty method then method else MethodGet)
  ∧ validMethod (Method req) = true
  ∧ ∃ u, url_Parse url = Ok u ∧ ReqURL req = set_Host (trim_colon (Host u)) u.
Proof.
  unfold http_NewRequest.
  destruct (validMethod _) eqn:Hvalid; [|done].
  destruct (url_Parse url) as [u|]; simpl; [|done].
  intros [= <-]. simpl. eauto.
Qed.

(** X6.  A request that [NewRequest] builds has a method made of token
    characters: the one given or, for the empty string, GET; and its URL is
    the resolved URL, printed and parsed again. *)
Theorem NewRequest_method_and_URL (c : Client) (method urlStr : string)
    (body : option Value) (req : Request) :
  NewRequest c method urlStr body = Ok req →
  Method req = (if nonempty method then method else MethodGet)
  ∧ validMethod (Method req) = true
  ∧ ∃ u u', URL_Parse (BaseURL c) urlStr = Ok u
            ∧ url_Parse (URL_String u) = Ok u'
            ∧ ReqURL req = set_Host (trim_colon (Host u')) u'.
Proof.
  intros Hreq.
  destruct (NewRequest_inv _ _ _ _ _ Hreq)
    as (u & buf & req0 & Hu & Hnew & _ & ->).
  destruct (http_NewRequest_inv _ _ _ _ Hnew) as (Hm & Hv & u' & Hu' & Hurl).
  destruct req0; simpl in *. eauto 10.
Qed.

(** X7.  A body value that cannot be encoded makes [NewRequest] fail with the
    encoder's error, except for GET, HEAD and OPTIONS, where the body
    value is not looked at. *)
Theorem NewRequest_encoding_failure (c : Client) (method urlStr : string)
    (b : Value) (u : URL) (e : error) :
  URL_Parse (BaseURL c) urlStr = Ok u →
  json_Encode b = Err e →
  NewRequest c method urlStr (Some b)
  = if is_bodyless method then NewRequest c method urlStr None else Err e.
Proof.
  intros Hu He. unfold NewRequest. rewrite Hu. simpl.
  destruct (is_bodyless method); [done|]. by rewrite He.
Qed.

(** ** Query options *)

(** X8.  When [addOptions] reports an error, the string it returns is the one
    it was given. *)
Theorem addOptions_error_returns_input (s : string) (opt : optArg Options)
    (e : error) :
  (addOptions s opt).2 = Some e → (addOptions s opt).1 = s.
Proof.
  unfold addOptions. destruct (is_nil_pointer opt); [done|].
  destruct (url_Parse s); [|done].
  by destruct (query_Values opt).
Qed.

(** X9.  Merging options twice is merging once the two sets of values, the
    later taking precedence: provided the URL of the first merge prints
    and parses back to itself with the merged query. *)
Theorem addOptions_twice (s : string) (opt1 opt2 : optArg Options)
    (origURL : URL) (values1 values2 : gmap string (list string)) :
  let merged := merge_values (URL_Query origURL) values1 in
  let url1 := set_RawQuery (Values_Encode merged) origURL in
  is_nil_pointer opt1 = false →
  is_nil_pointer opt2 = false →
  url_Parse s = Ok origURL →
  query_Values opt1 = Ok values1 →
  query_Values opt2 = Ok values2 →
  url_Parse (URL_String url1) = Ok url1 →
  URL_Query url1 = merged →
  addOptions (addOptions s opt1).1 opt2
  = (URL_String
       (set_RawQuery
          (Values_Encode (merge_values (URL_Query origURL)
                            (values2 ∪ values1)))
          origURL),
     None).
Proof.
  intros merged url1 Hn1 Hn2 Hparse Hv1 Hv2 Hback Hquery.
  unfold addOptions at 2. rewrite Hn1, Hparse, Hv1. simpl.
  fold merged. fold url1.
  unfold addOptions. rewrite Hn2, Hback, Hv2, Hquery.
  unfold url1, merged. rewrite !merge_values_union. simpl.
  by rewrite (assoc_L (∪)).
Qed.

End MoreRequestProperties.

Section MoreDoProperties.
Context {Value Options : Type} `{!GoLib Value Options}.

(** ** What [CheckResponse] does to the body *)

(** X10.  [CheckResponse] leaves a response of the 200 range as it is, body
    unread, and reports no error.  It reads the body of any other response
    to its end, without closing it; when that body is empty or cannot be
    read, nothing else of the response changes, and the error points to
    the response with message and code unset. *)
Theorem CheckResponse_body (r : Response) :
  let read := set_RespBody (set_unread "" (RespBody r)) r in
  (200 ≤ StatusCode r ≤ 299 → CheckResponse r = (r, false, None))
  ∧ (¬ (200 ≤ StatusCode r ≤ 299) →
     RespBody (CheckResponse r).1.1 = set_unread "" (RespBody r)
     ∧ (readErr (RespBody r) ≠ None ∨ unread (RespBody r) = "" →
        CheckResponse r
        = (read, false,
           Some (ApiError {| ErrResponse := TheResponse read;
                             Message := ""; Code := 0 |})))).
Proof.
  cbv zeta. split; [apply CheckResponse_success|].
  intros Hout. split; [by apply CheckResponse_reads_body|].
  intros Hbody. unfold CheckResponse.
  destruct ((200 <=? StatusCode r) && (StatusCode r <=? 299)) eqn:Hc.
  { by apply in_range_spec in Hc. }
  simpl. revert Hbody. destruct (readErr (RespBody r)); [done|].
  intros [Hread| ->]; done.
Qed.

(** ** Every way [Do] can end *)

Lemma Do_returns_inv (fuel : nat) (c : Client) (req : Request)
    (v : dest Value) (w w' : World)
    (out : option Response * option error * dest Value) :
  run (Do fuel c req v) w = Returns out w' →
  ∃ r err w1, run (complete c req r err v) w1 = Returns out w'.
Proof.
  unfold Do. rewrite run_bind. simpl.
  destruct (http_client c (sent w) req) as [resp err].
  rewrite run_bind.
  destruct (run (retry_while_202 fuel c req resp err) _)
    as [[r err'] w1| |]; [|done..].
  eauto.
Qed.

Lemma complete_closes (c : Client) (req : Request) (r : Response)
    (err : option error) (v : dest Value) (w w' : World)
    (out : option Response * option error * dest Value) (r' : Response) :
  run (complete c req r err v) w = Returns out w' →
  out.1.1 = Some r' →
  closed (RespBody r') = true ∧ EvClose ∈ log w'.
Proof.
  destruct err as [e|]; [by intros [= <- _]|].
  rewrite complete_run. cbv zeta.
  destruct ((200 <=? StatusCode r) && (StatusCode r <=? 299)).
  - destruct v as [|wr|x].
    all: try (destruct (io_Copy wr (RespBody r)) as [[wr' b'] [ce|]]).
    all: try (destruct (json_Decode (unread (RespBody r))
                          (readErr (RespBody r)) x) as [[k x'] [de|]]).
    all: intros [= <- <-]; simpl; intros Hwrap; try done.
    all: injection Hwrap as <-; split; [done|logged].
  - destruct (CheckResponse r) as [[r1 [|]] e1]; [done|].
    intros [= <- <-]; simpl. intros [= <-]. split; [done|logged].
Qed.

(** X11.  A response that [Do] returns has its body closed already: whatever the
    transport does, the wrapper handed to the caller holds a body that was
    closed before [Do] returned. *)
Theorem Do_returned_body_closed (fuel : nat) (c : Client) (req : Request)
    (v : dest Value) (w w' : World)
    (out : option Response * option error * dest Value) (r' : Response) :
  run (Do fuel c req v) w = Returns out w' →
  out.1.1 = Some r' →
  closed (RespBody r') = true ∧ EvClose ∈ log w'.
Proof.
  intros Hrun Hwrap.
  destruct (Do_returns_inv _ _ _ _ _ _ _ Hrun) as (r & err & w1 & Hc).
  by apply (complete_closes c req r err v w1 w' out r').
Qed.

(** X12.  When the exchange hands over an error together with a response (of a
    status other than 202), [Do] returns the error and no response, and
    does nothing else: no callback, no read, no close. *)
Theorem Do_error_with_response (fuel : nat) (c : Client) (req : Request)
    (v : dest Value) (w : World) (r : Response) (e : error) :
  http_client c (sent w) req = (Some r, Some e) →
  StatusCode r ≠ 202 →
  run (Do fuel c req v) w = Returns (None, Some e, v) (after_sends 1 req w).
Proof.
  intros Hex Hst%Z.eqb_neq. unfold Do. rewrite run_bind. simpl. rewrite Hex.
  rewrite run_bind. unfold after_sends.
  destruct fuel; simpl; rewrite Hst; simpl; do 2 f_equal; lia.
Qed.

(** ** The final response is an error of the API *)

Lemma drop_bytes_empty (k : nat) : drop_bytes k "" = "".
Proof. by destruct k. Qed.

(** X13.  When [Do] ends on a response outside the 200 range, nothing is
    copied or decoded and the destination is left as it was.  If the
    decoder of the error body has set the body of the response to nil,
    the deferred close panics.  Otherwise [Do] returns both the response
    as [CheckResponse] leaves it, its body read to the end and closed, and
    an [ErrorResponse] with the message and code that [CheckResponse]
    found, which points to that same response if it pointed to the
    response before. *)
Theorem Do_api_error (fuel : nat) (c : Client) (req : Request)
    (v : dest Value) (w : World) (n : nat) (r : Response) :
  settles (http_client c) req (sent w) n r →
  (n ≤ fuel)%nat →
  ¬ (200 ≤ StatusCode r ≤ 299) →
  ∃ r1 body_nil e0 evs,
    let w' := {| sent := sent w + S n;
                 log := log w ++ replicate (S n) (EvSend req) ++ evs |} in
    CheckResponse r = (r1, body_nil, Some (ApiError e0))
    ∧ (EvCopy ∉ evs) ∧ (EvDecode ∉ evs)
    ∧ if body_nil
      then run (Do fuel c req v) w = Panics nil_dereference w'
           ∧ EvClose ∉ evs
      else ∃ e,
           run (Do fuel c req v) w
           = Returns (Some (released r1), Some (ApiError e), v) w'
           ∧ EvClose ∈ evs
           ∧ Message e = Message e0 ∧ Code e = Code e0
           ∧ ErrResponse e
             = match ErrResponse e0 with
               | TheResponse _ => TheResponse (released r1)
               | p => p
               end
           ∧ unread (RespBody (released r1)) = ""
           ∧ closed (RespBody (released r1)) = true.
Proof.
  intros Hs Hfuel Hout. rewrite (Do_settles fuel c req v w n r Hs Hfuel).
  rewrite complete_run. cbv zeta. unfold after_sends. cbn [sent log].
  rewrite <- !(assoc_L (++) (log w)).
  destruct ((200 <=? StatusCode r) && (StatusCode r <=? 299)) eqn:Hc.
  { by apply in_range_spec in Hc. }
  pose proof (CheckResponse_reads_body r Hout) as Hbody.
  destruct (CheckResponse_failure r Hout) as (r1 & bn & e0 & Hcr).
  rewrite Hcr in *. simpl in Hbody.
  exists r1, bn, e0.
  destruct bn.
  - exists ((if onRequestCompleted c then [EvCompleted req r] else []) ++ []).
    cbv zeta. split; [done|]. split; [|split; [|split; [reflexivity|]]].
    all: destruct (onRequestCompleted c); simpl; not_logged.
  - assert (unread (RespBody (released r1)) = "") as Hempty.
    { simpl. unfold drain.
      destruct (_ || _); simpl; rewrite Hbody; simpl; [|done].
      first [done | apply drop_bytes_empty]. }
    exists ((if onRequestCompleted c then [EvCompleted req r] else [])
            ++ [EvClose]).
    cbv zeta. split; [done|]. split; [|split].
    1,2: destruct (onRequestCompleted c); simpl; not_logged.
    simpl. destruct (ErrResponse e0) eqn:Hp; eexists;
      (split; [reflexivity|]); (split; [logged|]); simpl; by rewrite ?Hp.
Qed.

(** ** The completion callback *)

(** X14.  A registered callback is called exactly once per call of [Do] that
    gets a final response, whether the call then returns or panics: after
    the last exchange and before the body is touched, with the request
    and that response; responses of status 202 are not shown to it.
    Without a registered callback none is called. *)
Theorem Do_callback_once (fuel : nat) (c : Client) (req : Request)
    (v : dest Value) (w : World) (n : nat) (r : Response) :
  settles (http_client c) req (sent w) n r →
  (n ≤ fuel)%nat →
  ∃ evs,
    final_world (run (Do fuel c req v) w)
    = Some {| sent := sent w + S n;
              log := log w ++ replicate (S n) (EvSend req) ++ evs |}
    ∧ if onRequestCompleted c
      then ∃ evs', evs = EvCompleted req r :: evs'
                   ∧ ∀ q r', EvCompleted q r' ∉ evs'
      else ∀ q r', EvCompleted q r' ∉ evs.
Proof.
  intros Hs Hfuel. rewrite (Do_settles fuel c req v w n r Hs Hfuel).
  rewrite complete_run. cbv zeta. unfold after_sends. cbn [sent log].
  rewrite <- !(assoc_L (++) (log w)).
  destruct ((200 <=? StatusCode r) && (StatusCode r <=? 299)).
  - destruct v as [|wr|x].
    all: try (destruct (io_Copy wr (RespBody r)) as [[wr' b'] [ce|]]).
    all: try (destruct (json_Decode (unread (RespBody r))
                          (readErr (RespBody r)) x) as [[k x'] [de|]]).
    all: destruct (onRequestCompleted c); simpl;
      eexists; (split; [reflexivity|]).
    all: try (eexists; split; [reflexivity|]).
    all: intros q r'; not_logged.
  - destruct (CheckResponse r) as [[r1 [|]] e1].
    all: destruct (onRequestCompleted c); simpl;
      eexists; (split; [reflexivity|]).
    all: try (eexists; split; [reflexivity|]).
    all: intros q r'; not_logged.
Qed.

(** ** Exchanges that fail during the retries *)

Lemma exchange_loop_fails (c : Client) (req : Request) (eo : option error)
    (n : nat) :
  ∀ (fuel : nat) (w : World),
    (∀ i, (i < n)%nat →
          ∃ ri ei, http_client c (sent w + i)%nat req = (Some ri, ei)
                   ∧ StatusCode ri = 202) →
    http_client c (sent w + n)%nat req = (None, eo) →
    (n ≤ fuel)%nat →
    run ('(resp, err) ← DoRequestWithClient (http_client c) req;
         retry_while_202 fuel c req resp err) w
    = Panics nil_dereference (after_sends (S n) req w).
Proof.
  induction n as [|n IH]; intros fuel w H202 Hfail Hfuel; rewrite run_bind; simpl.
  - rewrite Nat.add_0_r in Hfail. rewrite Hfail. unfold after_sends.
    destruct fuel; simpl; do 2 f_equal; lia.
  - destruct (H202 0%nat) as (r0 & e0 & Hr0 & Hst); [lia|].
    rewrite Nat.add_0_r in Hr0. rewrite Hr0.
    destruct fuel as [|fuel]; [lia|]. simpl.
    apply Z.eqb_eq in Hst. rewrite Hst.
    rewrite (IH fuel); [by rewrite after_sends_succ| | |lia].
    + intros i Hi. cbn [sent].
      replace (S (sent w) + i)%nat with (sent w + S i)%nat by lia.
      apply H202. lia.
    + cbn [sent].
      by replace (S (sent w) + n)%nat with (sent w + S n)%nat by lia.
Qed.

(** X15.  An exchange that gives no response, at the first attempt or after any
    number of 202 responses, makes [Do] panic on the nil response: the
    transport error is not returned. *)
Theorem Do_failed_exchange_panics (fuel : nat) (c : Client) (req : Request)
    (v : dest Value) (w : World) (n : nat) (eo : option error) :
  (∀ i, (i < n)%nat →
        ∃ ri ei, http_client c (sent w + i)%nat req = (Some ri, ei)
                 ∧ StatusCode ri = 202) →
  http_client c (sent w + n)%nat req = (None, eo) →
  (n ≤ fuel)%nat →
  run (Do fuel c req v) w = Panics nil_dereference (after_sends (S n) req w).
Proof.
  intros H202 Hfail Hfuel.
  pose proof (exchange_loop_fails c req eo n fuel w H202 Hfail Hfuel) as Hloop.
  unfold Do. rewrite run_bind in Hloop. rewrite run_bind. simpl in *.
  destruct (http_client c (sent w) req) as [resp err].
  rewrite run_bind. by rewrite Hloop.
Qed.

End MoreDoProperties.

Section MoreServiceProperties.
Context {Value Options : Type} `{!GoLib Value Options}.

(** ** What the operations return *)




(** ** Failures before any exchange *)

(** X18.  When the path of an operation does not resolve against the base URL,
    the operation returns that error with no value and no response, and
    makes no exchange. *)
Theorem operations_unresolved_path (target : Value) (fuel : nat) (c : Client)
    (id : string) (e : error) (w : World) :
  id ≠ "" →
  URL_Parse (BaseURL c) (blueprintBasePath +:+ "/" +:+ id) = Err e →
  run (Blueprints_Get target fuel c id) w = Returns (None, None, Some e) w
  ∧ run (Blueprints_Delete fuel c id) w = Returns (None, Some e) w.
Proof.
  intros Hid Hu. unfold Blueprints_Get, Blueprints_Delete.
  destruct id; [done|]. simpl negb. cbv iota.
  unfold request_into, request_only, NewRequest. by rewrite Hu.
Qed.

(** ** The paths the blueprint operations use *)

(** X19.  [Update] of a blueprint does not use the identifier beyond checking
    that it is not empty: the request goes to the collection path, the
    same for every identifier. *)
Theorem Blueprints_Update_ignores_id (target : Value) (fuel : nat)
    (c : Client) (id1 id2 : string) (body : option Value) :
  id1 ≠ "" → id2 ≠ "" →
  Blueprints_Update target fuel c id1 body
  = Blueprints_Update target fuel c id2 body
  ∧ ∀ b, Blueprints_Update target fuel c id1 (Some b)
         = request_into fuel c MethodPut "blueprint" (Some b) target.
Proof. intros H1 H2. by destruct id1, id2. Qed.

(** X20.  [Export] with a nil pointer for the export parameters asks, with GET,
    for the path made of the base path, the identifier and the format,
    with no query added. *)
Theorem Blueprints_Export_without_parameters (target : Value) (fuel : nat)
    (c : Client) (id format : string) :
  id ≠ "" →
  Blueprints_Export target fuel c id
    (Some (mkBlueprintExportRequest Options format None))
  = request_into fuel c MethodGet
      ("blueprint/" +:+ id +:+ "/" +:+ format) None target.
Proof. intros Hid. by destruct id. Qed.

(** ** Operations that succeed *)

(** X21.  [Get] of a blueprint whose request ends on a response of the 200
    range with a body that decodes returns the decoded value, the response
    (body closed) and no error, after as many exchanges as it took to
    leave 202. *)
Theorem Blueprints_Get_success (target : Value) (fuel : nat) (c : Client)
    (id : string) (req : Request) (w : World) (n : nat) (r : Response)
    (k : nat) (x : Value) :
  id ≠ "" →
  NewRequest c MethodGet (blueprintBasePath +:+ "/" +:+ id) None = Ok req →
  settles (http_client c) req (sent w) n r →
  (n ≤ fuel)%nat →
  200 ≤ StatusCode r ≤ 299 →
  json_Decode (unread (RespBody r)) (readErr (RespBody r)) target
  = (k, x, None) →
  ∃ r' w',
    run (Blueprints_Get target fuel c id) w = Returns (Some x, Some r', None) w'
    ∧ same_response r r'
    ∧ closed (RespBody r') = true
    ∧ sent w' = (sent w + S n)%nat.
Proof.
  intros Hid Hreq Hs Hfuel Hok Hdec. unfold Blueprints_Get.
  destruct id; [done|]. simpl negb. cbv iota.
  unfold request_into. rewrite Hreq. rewrite run_bind.
  rewrite (Do_settles fuel c req _ w n r Hs Hfuel).
  unfold complete, handle, drain_and_close.
  rewrite (CheckResponse_success r Hok).
  destruct (onRequestCompleted c); simpl; rewrite Hdec; simpl;
    eexists _, _; (split; [reflexivity|]); by repeat split.
Qed.

(** X22.  [Delete] of a blueprint passes no destination: on a response of the
    200 range it returns the response and no error whatever the body
    holds, and the body is neither copied nor decoded. *)
Theorem Blueprints_Delete_success (fuel : nat) (c : Client) (id : string)
    (req : Request) (w : World) (n : nat) (r : Response) :
  id ≠ "" →
  NewRequest c MethodDelete (blueprintBasePath +:+ "/" +:+ id) None = Ok req →
  settles (http_client c) req (sent w) n r →
  (n ≤ fuel)%nat →
  200 ≤ StatusCode r ≤ 299 →
  ∃ evs,
    run (Blueprints_Delete fuel c id) w
    = Returns (Some (released r), None)
        {| sent := sent w + S n;
           log := log w ++ replicate (S n) (EvSend req) ++ evs |}
    ∧ (EvCopy ∉ evs) ∧ (EvDecode ∉ evs).
Proof.
  intros Hid Hreq Hs Hfuel Hok. unfold Blueprints_Delete.
  destruct id; [done|]. simpl negb. cbv iota.
  unfold request_only. rewrite Hreq. rewrite run_bind.
  rewrite (Do_settles fuel c req _ w n r Hs Hfuel).
  unfold complete, handle, drain_and_close.
  rewrite (CheckResponse_success r Hok).
  destruct (onRequestCompleted c); simpl; rewrite <- ?(assoc_L (++));
    eexists; (split; [reflexivity|]); split; not_logged.
Qed.

End MoreServiceProperties.

(** * The further properties at sample inputs *)

Lemma New_first_error_witness :
  let opts1 := [SetUserAgent "probe"] in
  let c1 := set_UserAgent "probe cloudcraft-go/1.0.0" (NewClient None) in
  let e := LibError "net/url: invalid control character in URL" in
  New None opts1 = Ok c1
  ∧ SetBaseURL path_with_line_feed c1 = Err e
  ∧ New None (opts1 ++ SetBaseURL path_with_line_feed
                    :: [SetRequestHeaders {[ "X-Team" := "ops" ]}])
    = Err e.
Proof.
  intros opts1 c1 e.
  assert (New None opts1 = Ok c1) as H1 by reflexivity.
  assert (SetBaseURL path_with_line_feed c1 = Err e) as H2
    by (vm_compute; reflexivity).
  split; [exact H1|]. split; [exact H2|].
  exact (New_first_error None opts1 [SetRequestHeaders {[ "X-Team" := "ops" ]}]
           (SetBaseURL path_with_line_feed) c1 e H1 H2).
Defined.

Lemma NewRequest_accept_user_agent_witness :
  ∃ req,
    NewRequest (set_headers {[ "accept" := "text/html" ]} (NewClient None))
      MethodPost "blueprint" (Some "{}") = Ok req
    ∧ ReqHeader req !! "Accept" = Some ["application/json"]
    ∧ ReqHeader req !! "User-Agent" = Some ["cloudcraft-go/1.0.0"].
Proof.
  destruct (NewRequest (set_headers {[ "accept" := "text/html" ]}
                          (NewClient None))
              MethodPost "blueprint" (Some "{}")) as [req|e] eqn:Hreq;
    [|vm_compute in Hreq; discriminate].
  exists req. split; [reflexivity|].
  exact (NewRequest_accept_user_agent _ MethodPost "blueprint" (Some "{}")
           req Hreq).
Defined.

Lemma SetUserAgent_header_witness :
  ∃ c req,
    New None [SetUserAgent "probe/2"] = Ok c
    ∧ NewRequest c MethodGet "blueprint" None = Ok req
    ∧ ReqHeader req !! "User-Agent" = Some ["probe/2 cloudcraft-go/1.0.0"].
Proof.
  destruct (New None [SetUserAgent "probe/2"]) as [c|e] eqn:Hc; [|discriminate].
  destruct (NewRequest c MethodGet "blueprint" None) as [req|e] eqn:Hreq;
    [|injection Hc as <-; vm_compute in Hreq; discriminate].
  exists c, req. split; [reflexivity|]. split; [exact Hreq|].
  exact (SetUserAgent_header None "probe/2" c MethodGet "blueprint" None req
           Hc Hreq).
Defined.

Lemma NewRequest_static_headers_witness :
  let c := set_headers {[ "x-team" := "ops" ]} (NewClient None) in
  ∃ req,
    NewRequest c MethodGet "blueprint" None = Ok req
    ∧ headers c !! "x-team" = Some "ops"
    ∧ CanonicalMIMEHeaderKey "x-team" ≠ "Accept"
    ∧ CanonicalMIMEHeaderKey "x-team" ≠ "User-Agent"
    ∧ "ops" ∈ Header_Values "x-team" (ReqHeader req).
Proof.
  intros c.
  destruct (NewRequest c MethodGet "blueprint" None) as [req|e] eqn:Hreq;
    [|vm_compute in Hreq; discriminate].
  assert (headers c !! "x-team" = Some "ops") as Hk by reflexivity.
  assert (CanonicalMIMEHeaderKey "x-team" ≠ "Accept") as Ha by discriminate.
  assert (CanonicalMIMEHeaderKey "x-team" ≠ "User-Agent") as Hu
    by discriminate.
  exists req. split; [reflexivity|]. split; [exact Hk|].
  split; [exact Ha|]. split; [exact Hu|].
  exact (NewRequest_static_headers c MethodGet "blueprint" None req
           "x-team" "ops" Hreq Hk Ha Hu).
Defined.

Lemma NewRequest_method_and_URL_witness :
  ∃ req,
    NewRequest (NewClient None) "" "blueprint" None = Ok req
    ∧ Method req = MethodGet
    ∧ validMethod (Method req) = true.
Proof.
  destruct (NewRequest (NewClient None) "" "blueprint" None)
    as [req|e] eqn:Hreq; [|vm_compute in Hreq; discriminate].
  exists req. split; [reflexivity|].
  destruct (NewRequest_method_and_URL (NewClient None) "" "blueprint" None
              req Hreq) as (Hm & Hv & _).
  split; [exact Hm|exact Hv].
Defined.

Lemma NewRequest_encoding_failure_witness :
  let u := mkURL "https" "api.cloudcraft.co" "/blueprint" "" "" in
  let e := LibError "json: unsupported type" in
  @URL_Parse _ _ lib_without_encoder
    (BaseURL (@NewClient _ _ lib_without_encoder None)) "blueprint" = Ok u
  ∧ @json_Encode _ _ lib_without_encoder "chan" = Err e
  ∧ @NewRequest _ _ lib_without_encoder
      (@NewClient _ _ lib_without_encoder None) MethodPost "blueprint"
      (Some "chan")
    = Err e.
Proof.
  intros u e.
  assert (@URL_Parse _ _ lib_without_encoder
            (BaseURL (@NewClient _ _ lib_without_encoder None)) "blueprint"
          = Ok u) as Hu by (vm_compute; reflexivity).
  assert (@json_Encode _ _ lib_without_encoder "chan" = Err e) as He
    by reflexivity.
  split; [exact Hu|]. split; [exact He|].
  exact (@NewRequest_encoding_failure _ _ lib_without_encoder
           (@NewClient _ _ lib_without_encoder None) MethodPost "blueprint"
           "chan" u e Hu He).
Defined.

Lemma addOptions_error_returns_input_witness :
  let opt := OptValue [("width", "2")] in
  let e := LibError "net/url: invalid control character in URL" in
  (addOptions path_with_line_feed opt).2 = Some e
  ∧ (addOptions path_with_line_feed opt).1 = path_with_line_feed.
Proof.
  intros opt e.
  assert ((addOptions path_with_line_feed opt).2 = Some e) as He
    by (vm_compute; reflexivity).
  split; [exact He|].
  exact (addOptions_error_returns_input path_with_line_feed opt e He).
Defined.

Lemma addOptions_twice_witness :
  let s := "blueprint/b1/png?width=1&grid=true" in
  let opt1 := OptPointer (Some [("width", "2")]) in
  let opt2 := OptValue [("height", "3")] in
  let origURL := mkURL "" "" "blueprint/b1/png" "width=1&grid=true" "" in
  let values1 : gmap string (list string) := {[ "width" := ["2"] ]} in
  let values2 : gmap string (list string) := {[ "height" := ["3"] ]} in
  addOptions (addOptions s opt1).1 opt2
  = (URL_String
       (set_RawQuery
          (Values_Encode (merge_values (URL_Query origURL)
                            (values2 ∪ values1)))
          origURL),
     None)
  ∧ (addOptions (addOptions s opt1).1 opt2).1
    = "blueprint/b1/png?grid=true&height=3&width=2".
Proof.
  intros s opt1 opt2 origURL values1 values2.
  assert (addOptions (addOptions s opt1).1 opt2
          = (URL_String
               (set_RawQuery
                  (Values_Encode (merge_values (URL_Query origURL)
                                    (values2 ∪ values1)))
                  origURL),
             None)) as Htwice.
  { apply (addOptions_twice s opt1 opt2 origURL values1 values2);
      vm_compute; reflexivity. }
  split; [exact Htwice|]. vm_compute. reflexivity.
Defined.

Lemma Do_returned_body_closed_witness :
  let c := NewClient (Some (answers (response_of 404 body_not_found))) in
  ∃ out w' r',
    run (Do 0 c request_xyz DestNil) World0 = Returns out w'
    ∧ out.1.1 = Some r'
    ∧ closed (RespBody r') = true.
Proof.
  intros c.
  destruct (run (Do 0 c request_xyz DestNil) World0)
    as [out w'| |] eqn:Hrun; [|vm_compute in Hrun; discriminate..].
  destruct (out.1.1) as [r'|] eqn:Hwrap;
    [|vm_compute in Hrun; injection Hrun as <- _; discriminate].
  exists out, w', r'. split; [reflexivity|]. split; [exact Hwrap|].
  exact (proj1 (Do_returned_body_closed 0 c request_xyz DestNil World0 w'
                  out r' Hrun Hwrap)).
Defined.

Lemma Do_error_with_response_witness :
  let c := NewClient (Some redirect_refused) in
  let e := LibError "Get: stopped after 10 redirects" in
  http_client c (sent World0) request_xyz = (Some (response_of 302 ""), Some e)
  ∧ StatusCode (response_of 302 "") ≠ 202
  ∧ run (Do 0 c request_xyz DestNil) World0
    = Returns (None, Some e, DestNil) (after_sends 1 request_xyz World0).
Proof.
  intros c e.
  assert (StatusCode (response_of 302 "") ≠ 202) as Hst by discriminate.
  split; [reflexivity|]. split; [exact Hst|].
  exact (Do_error_with_response 0 c request_xyz DestNil World0
           (response_of 302 "") e eq_refl Hst).
Defined.

Lemma Do_api_error_witness :
  let r := response_of 404 body_not_found in
  let c := NewClient (Some (answers r)) in
  settles (http_client c) request_xyz 0 0 r
  ∧ (0 ≤ 0)%nat
  ∧ ¬ (200 ≤ StatusCode r ≤ 299)
  ∧ ∃ r1 e w',
      run (Do 0 c request_xyz (DestValue "")) World0
      = Returns (Some (released r1), Some (ApiError e), DestValue "") w'
      ∧ Message e = "not found" ∧ Code e = 404
      ∧ ErrResponse e = TheResponse (released r1)
      ∧ unread (RespBody (released r1)) = "".
Proof.
  intros r c.
  assert (settles (http_client c) request_xyz 0 0 r) as Hs.
  { split; [intros i Hi; lia|]. split; [reflexivity|discriminate]. }
  assert (¬ (200 ≤ StatusCode r ≤ 299)) as Hout.
  { simpl. lia. }
  split; [exact Hs|]. split; [lia|]. split; [exact Hout|].
  destruct (Do_api_error 0 c request_xyz (DestValue "") World0 0 r Hs
              (Nat.le_refl 0) Hout)
    as (r1 & bn & e0 & evs & Hcr & _ & _ & Hcase).
  vm_compute in Hcr. injection Hcr as <- <- <-.
  destruct Hcase as (e & Hrun & _ & Hm & Hc & Hp & Hempty & _).
  eexists _, e, _. split; [exact Hrun|].
  split; [exact Hm|]. split; [exact Hc|]. split; [exact Hp|exact Hempty].
Defined.

(** A 400 whose body is [{"Response":{"Body":null}}]: the decoder sets the
    body of the response to nil, and the deferred close of [Do] panics. *)
Example Do_panics_on_nil_body :
  run (Do 0 (NewClient (Some (answers
                                (response_of 400 body_response_body_null))))
         request_xyz DestNil) World0
  = Panics nil_dereference {| sent := 1; log := [EvSend request_xyz] |}.
Proof. vm_compute. reflexivity. Qed.

Lemma Do_callback_once_witness :
  let r := response_of 200 "{}" in
  let c := OnRequestCompleted (NewClient (Some accepted_twice)) in
  settles (http_client c) request_xyz 0 2 r
  ∧ (2 ≤ 2)%nat
  ∧ ∃ evs evs',
      final_world (run (Do 2 c request_xyz DestNil) World0)
      = Some {| sent := 3;
                log := replicate 3 (EvSend request_xyz) ++ evs |}
      ∧ evs = EvCompleted request_xyz r :: evs'.
Proof.
  intros r c.
  assert (settles (http_client c) request_xyz 0 2 r) as Hs.
  { split; [|split; [reflexivity|discriminate]].
    intros i Hi. exists (response_of 202 ""), None.
    destruct i as [|[|i]]; [split; reflexivity..|lia]. }
  split; [exact Hs|]. split; [lia|].
  destruct (Do_callback_once 2 c request_xyz DestNil World0 2 r Hs
              (Nat.le_refl 2)) as (evs & Hrun & evs' & Hevs & _).
  exists evs, evs'. split; [exact Hrun|exact Hevs].
Defined.

Lemma Do_failed_exchange_panics_witness :
  let c := NewClient (Some fails_after_accepted) in
  let eo := Some (LibError "read tcp: connection reset by peer") in
  (∀ i, (i < 1)%nat →
        ∃ ri ei, http_client c (sent World0 + i)%nat request_xyz = (Some ri, ei)
                 ∧ StatusCode ri = 202)
  ∧ http_client c (sent World0 + 1)%nat request_xyz = (None, eo)
  ∧ (1 ≤ 3)%nat
  ∧ run (Do 3 c request_xyz DestNil) World0
    = Panics nil_dereference (after_sends 2 request_xyz World0).
Proof.
  intros c eo.
  assert (∀ i, (i < 1)%nat →
               ∃ ri ei, http_client c (sent World0 + i)%nat request_xyz
                        = (Some ri, ei) ∧ StatusCode ri = 202) as H202.
  { intros i Hi. exists (response_of 202 ""), None.
    destruct i; [split; reflexivity|lia]. }
  assert (1 ≤ 3)%nat as Hle by lia.
  split; [exact H202|]. split; [reflexivity|]. split; [exact Hle|].
  exact (Do_failed_exchange_panics 3 c request_xyz DestNil World0 1 eo H202
           eq_refl Hle).
Defined.

Lemma Do_never_settles_witness :
  let c := NewClient (Some always_accepted) in
  (∀ i, ∃ ri ei, http_client c i request_xyz = (Some ri, ei)
                 ∧ StatusCode ri = 202)
  ∧ run (Do 1000 c request_xyz DestNil) World0 = Running.
Proof.
  intros c.
  assert (∀ i, ∃ ri ei, http_client c i request_xyz = (Some ri, ei)
                        ∧ StatusCode ri = 202) as H202.
  { intros i. exists (response_of 202 ""), None. split; reflexivity. }
  split; [exact H202|].
  exact (Do_never_settles 1000 c request_xyz DestNil World0 H202).
Defined.


Lemma operations_unresolved_path_witness :
  let c := NewClient None in
  let e := LibError "net/url: invalid control character in URL" in
  Sample.newline ≠ ""
  ∧ URL_Parse (BaseURL c) (blueprintBasePath +:+ "/" +:+ Sample.newline)
    = Err e
  ∧ run (Blueprints_Get "" 0 c Sample.newline) World0
    = Returns (None, None, Some e) World0
  ∧ run (Blueprints_Delete 0 c Sample.newline) World0
    = Returns (None, Some e) World0.
Proof.
  intros c e.
  assert (Sample.newline ≠ "") as Hid by discriminate.
  assert (URL_Parse (BaseURL c) (blueprintBasePath +:+ "/" +:+ Sample.newline)
          = Err e) as Hu by (vm_compute; reflexivity).
  split; [exact Hid|]. split; [exact Hu|].
  exact (operations_unresolved_path "" 0 c Sample.newline e World0 Hid Hu).
Defined.

Lemma Blueprints_Update_ignores_id_witness :
  let c := NewClient None in
  "bp1" ≠ "" ∧ "bp2" ≠ ""
  ∧ Blueprints_Update "" 0 c "bp1" (Some "{}")
    = Blueprints_Update "" 0 c "bp2" (Some "{}").
Proof.
  intros c.
  assert ("bp1" ≠ "") as H1 by discriminate.
  assert ("bp2" ≠ "") as H2 by discriminate.
  split; [exact H1|]. split; [exact H2|].
  exact (proj1 (Blueprints_Update_ignores_id "" 0 c "bp1" "bp2" (Some "{}")
                  H1 H2)).
Defined.

Lemma Blueprints_Export_without_parameters_witness :
  let c := NewClient None in
  "bp1" ≠ ""
  ∧ Blueprints_Export "" 0 c "bp1"
      (Some (mkBlueprintExportRequest Sample.Options "png" None))
    = request_into 0 c MethodGet "blueprint/bp1/png" None "".
Proof.
  intros c.
  assert ("bp1" ≠ "") as Hid by discriminate.
  split; [exact Hid|].
  exact (Blueprints_Export_without_parameters "" 0 c "bp1" "png" Hid).
Defined.

Lemma Blueprints_Get_success_witness :
  let r := response_of 200 "{}" in
  let c := NewClient (Some (answers r)) in
  ∃ req r' w',
    "xyz" ≠ ""
    ∧ NewRequest c MethodGet (blueprintBasePath +:+ "/" +:+ "xyz") None = Ok req
    ∧ settles (http_client c) req (sent World0) 0 r
    ∧ (0 ≤ 0)%nat
    ∧ 200 ≤ StatusCode r ≤ 299
    ∧ json_Decode (unread (RespBody r)) (readErr (RespBody r)) "" = (2%nat, "{}", None)
    ∧ run (Blueprints_Get "" 0 c "xyz") World0
      = Returns (Some "{}", Some r', None) w'
    ∧ closed (RespBody r') = true.
Proof.
  intros r c.
  destruct (NewRequest c MethodGet (blueprintBasePath +:+ "/" +:+ "xyz") None)
    as [req|e] eqn:Hreq; [|vm_compute in Hreq; discriminate].
  assert ("xyz" ≠ "") as Hid by discriminate.
  assert (settles (http_client c) req (sent World0) 0 r) as Hs.
  { split; [intros i Hi; lia|]. split; [reflexivity|discriminate]. }
  assert (200 ≤ StatusCode r ≤ 299) as Hok.
  { simpl. lia. }
  assert (json_Decode (unread (RespBody r)) (readErr (RespBody r)) ""
          = (2%nat, "{}", None)) as Hdec by (vm_compute; reflexivity).
  destruct (Blueprints_Get_success "" 0 c "xyz" req World0 0 r 2 "{}"
              Hid Hreq Hs (Nat.le_refl 0) Hok Hdec)
    as (r' & w' & Hrun & _ & Hclosed & _).
  exists req, r', w'.
  split; [exact Hid|]. split; [reflexivity|]. split; [exact Hs|].
  split; [lia|]. split; [exact Hok|]. split; [exact Hdec|].
  split; [exact Hrun|exact Hclosed].
Defined.

Lemma Blueprints_Delete_success_witness :
  let r := response_of 204 "" in
  let c := NewClient (Some (answers r)) in
  ∃ req w',
    "xyz" ≠ ""
    ∧ NewRequest c MethodDelete (blueprintBasePath +:+ "/" +:+ "xyz") None
      = Ok req
    ∧ settles (http_client c) req (sent World0) 0 r
    ∧ (0 ≤ 0)%nat
    ∧ 200 ≤ StatusCode r ≤ 299
    ∧ run (Blueprints_Delete 0 c "xyz") World0
      = Returns (Some (released r), None) w'.
Proof.
  intros r c.
  destruct (NewRequest c MethodDelete (blueprintBasePath +:+ "/" +:+ "xyz")
              None) as [req|e] eqn:Hreq; [|vm_compute in Hreq; discriminate].
  assert ("xyz" ≠ "") as Hid by discriminate.
  assert (settles (http_client c) req (sent World0) 0 r) as Hs.
  { split; [intros i Hi; lia|]. split; [reflexivity|discriminate]. }
  assert (200 ≤ StatusCode r ≤ 299) as Hok.
  { simpl. lia. }
  destruct (Blueprints_Delete_success 0 c "xyz" req World0 0 r Hid Hreq Hs
              (Nat.le_refl 0) Hok) as (evs & Hrun & _).
  exists req. eexists.
  split; [exact Hid|]. split; [reflexivity|]. split; [exact Hs|].
  split; [lia|]. split; [exact Hok|]. exact Hrun.
Defined.
